(** * db2-api-project: the library-management API, embedded and verified

    A shallow embedding of [app/models.py], [app/dtos.py] and
    [app/controlers.py].  The controllers are request handlers over a
    relational store; they are written here in a small state-and-exception
    monad over the tables.  A handler is taken from the point where the
    framework calls it, with its path parameters, its decoded body and its
    repositories in hand; what the framework does before that, decoding the
    body against the DTO of the route and filling the repositories from the
    dependencies of the controller, is written out where a route depends on
    it.  The clock ([datetime.utcnow()]) is an input of the handlers that
    read it. *)

From Stdlib Require Import ZArith Lia.
From Stdlib Require Import Floats.SpecFloat.
From stdpp Require Import base strings gmap list.

Local Open Scope Z_scope.

(** ** [datetime], [timedelta] and [float] as the handlers use them *)

(** A naive [datetime] is its distance from [datetime.min]
    (0001-01-01T00:00:00) in microseconds; comparison of naive datetimes is
    comparison of these counts.  A [date] is its proleptic ordinal. *)
Abbreviation datetime := Z (only parsing).
Abbreviation date := Z (only parsing).

Definition us_per_second : Z := 1000000.
Definition us_per_day : Z := 86400 * us_per_second.

(** [datetime.max] is 9999-12-31T23:59:59.999999; [date.max.toordinal()] is
    3652059 and [date.min.toordinal()] is 1. *)
Definition datetime_max : Z := 3652059 * us_per_day - 1.

Definition valid_datetime (d : datetime) : Prop := 0 <= d <= datetime_max.

(** A [timedelta] is kept normalised: [0 <= seconds < 86400] and
    [0 <= microseconds < 1000000], the sign carried by [days]. *)
Record timedelta := mk_timedelta {
  days : Z;
  seconds : Z;
  microseconds : Z
}.

Definition timedelta_of_us (us : Z) : timedelta :=
  {| days := us / us_per_day;
     seconds := (us mod us_per_day) / us_per_second;
     microseconds := us mod us_per_second |}.

(** [timedelta(days=n)] *)
Definition timedelta_days (n : Z) : timedelta := timedelta_of_us (n * us_per_day).

Definition total_us (td : timedelta) : Z :=
  days td * us_per_day + seconds td * us_per_second + microseconds td.

(** [d + td]; [None] stands for the [OverflowError] Python raises when the
    sum leaves the representable range. *)
Definition datetime_add (d : datetime) (td : timedelta) : option datetime :=
  let r := d + total_us td in
  if (0 <=? r) && (r <=? datetime_max) then Some r else None.

(** [a - b] on two datetimes *)
Definition datetime_sub (a b : datetime) : timedelta := timedelta_of_us (a - b).

(** [a > b] on two datetimes *)
Definition datetime_gt (a b : datetime) : bool := b <? a.

(** Python's [float] is IEEE 754 binary64. *)
Abbreviation float := spec_float (only parsing).

Definition float_prec : Z := 53.
Definition float_emax : Z := 1024.

(** Conversion of an [int] operand, as [int * float] performs it.  (Python
    raises for ints of 1024 bits and more; day counts are far below.) *)
Definition float_of_int (n : Z) : float :=
  binary_normalize float_prec float_emax n 0 false.

Definition float_mul (x y : float) : float := SFmul float_prec float_emax x y.

(** The literal [0.5] *)
Definition float_half : float := S754_finite false 4503599627370496 (-53).
(** [0.0] and [1.0] *)
Definition float_zero : float := S754_zero false.
Definition float_one : float := S754_finite false 4503599627370496 (-52).

(** The real number a finite float stands for, as [numerator / 2^k]. *)
Definition float_value (x : float) : option (Z * Z) :=
  match x with
  | S754_zero _ => Some (0, 0)
  | S754_finite s m e =>
      let n := if s then Z.neg m else Z.pos m in
      if 0 <=? e then Some (n * 2 ^ e, 0) else Some (n, - e)
  | _ => None
  end.

(** [float_value x] is the rational [q / 2]: twice the value is [q]. *)
Definition is_halves (x : float) (q : Z) : Prop :=
  match float_value x with
  | Some (n, k) => n * 2 = q * 2 ^ k
  | None => False
  end.

(** ** The data model ([app/models.py]) *)

(** A primary key is [None] on an object that was built but not yet
    persisted, as [Loan(book_id=..., ...)] in [create_loan]. *)

Record Category := mkCategory {
  Category_id : option Z;
  Category_name : string
}.

Record Book := mkBook {
  Book_id : option Z;
  Book_isbn : string;
  Book_title : string;
  Book_description : string;
  Book_year : Z;
  Book_language : string;
  Book_author_id : Z;
  (* the [Category] objects that the attribute holds; in the database they
     are rows of [categories], tied to the book through [books_categories] *)
  Book_categories : list Category
}.

Record Author := mkAuthor {
  Author_id : option Z;
  Author_name : string;
  Author_biography : option string;
  Author_date_of_birth : option date
}.

Record Client := mkClient {
  Client_id : option Z;
  Client_name : string;
  Client_email : string
}.

Record Loan := mkLoan {
  Loan_id : option Z;
  Loan_book_id : Z;
  Loan_client_id : Z;
  Loan_loan_date : datetime;
  Loan_return_date : option datetime;
  Loan_fine : option float
}.

(** The tables, rows in insertion order. *)
Record Store := mkStore {
  authors : list Author;
  books : list Book;
  clients : list Client;
  loans : list Loan
}.

Definition set_authors (rows : list Author) (st : Store) : Store :=
  {| authors := rows; books := books st; clients := clients st; loans := loans st |}.
Definition set_books (rows : list Book) (st : Store) : Store :=
  {| authors := authors st; books := rows; clients := clients st; loans := loans st |}.
Definition set_clients (rows : list Client) (st : Store) : Store :=
  {| authors := authors st; books := books st; clients := rows; loans := loans st |}.
Definition set_loans (rows : list Loan) (st : Store) : Store :=
  {| authors := authors st; books := books st; clients := clients st; loans := rows |}.

(** Every mapped class has the primary key [id]. *)
Class Model (A : Type) := {
  pk : A → option Z;
  set_pk : option Z → A → A
}.

#[global] Instance Author_model : Model Author := {|
  pk := Author_id;
  set_pk k a := {| Author_id := k; Author_name := Author_name a;
                   Author_biography := Author_biography a;
                   Author_date_of_birth := Author_date_of_birth a |}
|}.

#[global] Instance Book_model : Model Book := {|
  pk := Book_id;
  set_pk k b := {| Book_id := k; Book_isbn := Book_isbn b; Book_title := Book_title b;
                   Book_description := Book_description b; Book_year := Book_year b;
                   Book_language := Book_language b; Book_author_id := Book_author_id b;
                   Book_categories := Book_categories b |}
|}.

#[global] Instance Client_model : Model Client := {|
  pk := Client_id;
  set_pk k c := {| Client_id := k; Client_name := Client_name c;
                   Client_email := Client_email c |}
|}.

#[global] Instance Loan_model : Model Loan := {|
  pk := Loan_id;
  set_pk k l := {| Loan_id := k; Loan_book_id := Loan_book_id l;
                   Loan_client_id := Loan_client_id l; Loan_loan_date := Loan_loan_date l;
                   Loan_return_date := Loan_return_date l; Loan_fine := Loan_fine l |}
|}.

(** The relationships are read through the foreign keys. *)
Definition Book_author (st : Store) (b : Book) : option Author :=
  List.find (λ a, bool_decide (pk a = Some (Book_author_id b))) (authors st).

Definition Author_books (st : Store) (a : Author) : list Book :=
  List.filter (λ b, bool_decide (Some (Book_author_id b) = pk a)) (books st).

(** ** Requests: exceptions and the store *)

(** An exception as it reaches the exception handler of the framework.
    [HTTPError] is an [HTTPException] object: its status code, its detail
    and the positional arguments it was built with. *)
Inductive Exception :=
| HTTPError (status_code : Z) (detail : string) (args : list Z)
(* raised by the framework when a body does not fit the handler's DTO;
   answered with status 400 *)
| ValidationException
| OverflowError
(* raised by the session when a flush breaks a constraint of the schema *)
| IntegrityError.

Definition HTTP_500_INTERNAL_SERVER_ERROR : Z := 500.

(** The constructor of [HTTPException]: any positional arguments, then
    [detail] and [status_code] by keyword only.  Without the keyword the
    object keeps the status code of its class, 500
    ([status_code or self.status_code]); positional arguments are only
    stored.  Every call of [controlers.py] passes a number positionally and
    a detail that is not empty. *)
Definition HTTPException (args : list Z) (detail : string) (status_code : option Z)
    : Exception :=
  let status_code :=
    match status_code with
    | Some code => if code =? 0 then HTTP_500_INTERNAL_SERVER_ERROR else code
    | None => HTTP_500_INTERNAL_SERVER_ERROR
    end in
  HTTPError status_code detail args.

(** The status of the response that an exception is answered with. *)
Definition status_of (e : Exception) : Z :=
  match e with
  | HTTPError code _ _ => code
  | ValidationException => 400
  | OverflowError | IntegrityError => 500
  end.

(** A handler runs against the store and either returns or raises; the
    store it leaves behind is part of the outcome in both cases. *)
Definition Request (A : Type) : Type := Store → (Exception + A) * Store.

#[global] Instance Request_ret : MRet Request := λ A x st, (inr x, st).

#[global] Instance Request_bind : MBind Request := λ A B f m st,
  match m st with
  | (inr x, st') => f x st'
  | (inl e, st') => (inl e, st')
  end.

Definition raise {A : Type} (e : Exception) : Request A := λ st, (inl e, st).

(** Python truthiness of the values the handlers test with [if not x]. *)
Class Truthy (A : Type) := truthy : A → bool.

(** A list is false exactly when empty. *)
#[global] Instance list_truthy {A : Type} : Truthy (list A) :=
  λ l, match l with [] => false | _ :: _ => true end.

(** [Optional[T]] for a mapped class or a [datetime]: neither defines
    [__bool__] or [__len__], so only [None] is false. *)
#[global] Instance optional_truthy {A : Type} : Truthy (option A) :=
  λ o, match o with None => false | Some _ => true end.

(** ** The repositories *)

(** The row of a table with a given primary key. *)
Definition find_row `{Model A} (id : Z) (rs : list A) : option A :=
  List.find (λ r, bool_decide (pk r = Some id)) rs.

(** The rows of a table after the row with the key of [x] is replaced. *)
Definition replace_row `{Model A} (x : A) (rs : list A) : list A :=
  (λ r, if bool_decide (pk r = pk x) then x else r) <$> rs.

(** A table of the store, as a repository sees it. *)
Record Table (A : Type) := mkTable {
  rows : Store → list A;
  set_rows : list A → Store → Store
}.
Arguments rows {A} _ _.
Arguments set_rows {A} _ _ _.

Definition authors_table : Table Author := mkTable Author authors set_authors.
Definition books_table : Table Book := mkTable Book books set_books.
Definition clients_table : Table Client := mkTable Client clients set_clients.
Definition loans_table : Table Loan := mkTable Loan loans set_loans.

Section Repository.
Context {A : Type} `{Model A} (T : Table A).

(** Modelled from the spec: [app/repositories.py] is not in the tree.
    [list] returns all rows of the entity, in insertion order, and the
    empty sequence if there are none. *)
Definition repo_list : Request (list A) :=
  λ st, (inr (rows T st), st).

(** Modelled from the spec: [app/repositories.py] is not in the tree.
    [get] returns the entity with the given id or [None]; a missing id
    raises nothing. *)
Definition repo_get (id : Z) : Request (option A) :=
  λ st, (inr (find_row id (rows T st)), st).

(** The key the next inserted row receives. *)
Definition fresh_pk (rs : list A) : Z :=
  1 + foldr (λ r m, Z.max (default 0 (pk r)) m) 0 rs.

(** Modelled from the spec: [app/repositories.py] is not in the tree.
    [add] writes the entity through the session and returns it with its
    id assigned.  The object passed in is the object persisted: a handler
    that keeps its own reference sees the assigned id. *)
Definition repo_add (x : A) : Request A :=
  λ st, let x' := set_pk (Some (fresh_pk (rows T st))) x in
        (inr x', set_rows T (rows T st ++ [x']) st).

(** Modelled from the spec: [app/repositories.py] is not in the tree.
    [update] persists an entity with mutated fields and returns it; the
    entity is taken to exist already. *)
Definition repo_update (x : A) : Request A :=
  λ st, (inr x, set_rows T (replace_row x (rows T st)) st).
End Repository.

Definition AuthorRepository_list := repo_list authors_table.
Definition AuthorRepository_get := repo_get authors_table.
Definition AuthorRepository_update := repo_update authors_table.

Definition BookRepository_list := repo_list books_table.
Definition BookRepository_get := repo_get books_table.

(** Modelled from the spec: [app/repositories.py] is not in the tree.
    [update] persists an entity with mutated fields and returns it.  For a
    book the write goes beyond the row: the categories assigned to a book
    are rows of [categories], tied to the book through [books_categories],
    and a category that comes with the id of a row that is already there is
    inserted anew and breaks the primary key, an [IntegrityError].  What the
    flush of a book makes of the store is therefore kept as a parameter: it
    raises, and then nothing is written, or it gives the store after the
    write. *)
Class BookFlush := book_flush : Book → Store → Exception + Store.

Definition BookRepository_update `{!BookFlush} (book : Book) : Request Book :=
  λ st, match book_flush book st with
        | inl e => (inl e, st)
        | inr st' => (inr book, st')
        end.

Definition ClientRepository_list := repo_list clients_table.
Definition ClientRepository_get := repo_get clients_table.

Definition LoanRepository_get := repo_get loans_table.
Definition LoanRepository_add := repo_add loans_table.
Definition LoanRepository_update := repo_update loans_table.

(** ** The DTO layer ([app/dtos.py]) *)

(** Values a decoded request body carries for the fields of the models. *)
Inductive value :=
| VNone
| VInt (n : Z)
| VStr (s : string)
| VDate (d : date)
| VCategories (cs : list Category).

Inductive field_type :=
| TInt
| TStr
| TDate
| TOptional (t : field_type)
| TCategories
(* a nested mapped object; no write configuration of [dtos.py] keeps one *)
| TRelationship.

(** A value as a mapped attribute of the type holds it. *)
Fixpoint holds_type (t : field_type) (v : value) : bool :=
  match t, v with
  | TInt, VInt _ => true
  | TStr, VStr _ => true
  | TDate, VDate _ => true
  | TCategories, VCategories _ => true
  | TOptional _, VNone => true
  | TOptional t', _ => holds_type t' v
  | _, _ => false
  end.

(** The decoder behind a DTO is not strict: for a field of type [int] it
    also takes a string that reads as an integer, as ["1937"] for the year
    of a book.  Which strings read as an integer is the decoder's business
    and is kept as a parameter. *)
Class LaxDecoder := str_to_int : string → option Z.

(** The value that the decoder makes of a value of the body for a field. *)
Fixpoint coerce `{!LaxDecoder} (t : field_type) (v : value) : value :=
  match t with
  | TInt =>
      match v with
      | VStr s => match str_to_int s with Some n => VInt n | None => v end
      | _ => v
      end
  | TOptional t' => coerce t' v
  | _ => v
  end.

(** The values of a body that the decoder accepts for a field. *)
Definition has_type `{!LaxDecoder} (t : field_type) (v : value) : bool :=
  holds_type t (coerce t v).

(** A field of a mapped class as the DTO factory sees it: a nullable
    column defaults to [None], any other column or relationship of
    [models.py] has no default. *)
Record FieldDefinition := mkField {
  field_name : string;
  field_ty : field_type;
  field_default : option value
}.

Definition Author_fields : list FieldDefinition :=
  [ mkField "id" TInt None;
    mkField "name" TStr None;
    mkField "biography" (TOptional TStr) (Some VNone);
    mkField "date_of_birth" (TOptional TDate) (Some VNone);
    mkField "books" TRelationship None ].

Definition Book_fields : list FieldDefinition :=
  [ mkField "id" TInt None;
    mkField "isbn" TStr None;
    mkField "title" TStr None;
    mkField "description" TStr None;
    mkField "year" TInt None;
    mkField "language" TStr None;
    mkField "author_id" TInt None;
    mkField "author" TRelationship None;
    mkField "categories" TCategories None ].

Record SQLAlchemyDTOConfig := mkConfig {
  exclude : gset string;
  partial : bool
}.

Definition AuthorWriteDTO : SQLAlchemyDTOConfig :=
  {| exclude := {["id"; "books"]}; partial := false |}.

Definition AuthorUpdateDTO : SQLAlchemyDTOConfig :=
  {| exclude := {["id"; "books"]}; partial := true |}.

Definition BookWriteDTO : SQLAlchemyDTOConfig :=
  {| exclude := {["id"; "author"]}; partial := false |}.

Definition ClientWriteDTO : SQLAlchemyDTOConfig :=
  {| exclude := {["id"]}; partial := false |}.

Definition LoanWriteDTO : SQLAlchemyDTOConfig :=
  {| exclude := {["id"; "fine"]}; partial := false |}.

(** [DTOData]: the validated fields of a body, a dict in field order. *)
Abbreviation DTOData := (list (string * value)) (only parsing).

(** Decoding a body against a configuration.  Excluded fields and keys that
    name no field are ignored; a supplied value must be accepted for the
    field's type and is kept as the decoder reads it; a field that is not
    supplied is left out when the configuration is partial, and otherwise
    takes its default or, having none, fails the validation ([None]). *)
Fixpoint decode `{!LaxDecoder} (cfg : SQLAlchemyDTOConfig) (fields : list FieldDefinition)
    (body : gmap string value) : option DTOData :=
  match fields with
  | [] => Some []
  | f :: fs =>
      if bool_decide (field_name f ∈ exclude cfg) then decode cfg fs body
      else
        match body !! field_name f with
        | Some v =>
            if has_type (field_ty f) v
            then cons (field_name f, coerce (field_ty f) v) <$> decode cfg fs body
            else None
        | None =>
            if partial cfg then decode cfg fs body
            else
              match field_default f with
              | Some d => cons (field_name f, d) <$> decode cfg fs body
              | None => None
              end
        end
  end.

(** Attribute access by name on a mapped object. *)
Class Attrs (A : Type) := {
  getattr : string → A → option value;
  setattr : string → value → A → A
}.

Definition value_of_pk (k : option Z) : value :=
  match k with Some n => VInt n | None => VNone end.

Definition Author_getattr (k : string) (a : Author) : option value :=
  if decide (k = "id") then Some (value_of_pk (Author_id a))
  else if decide (k = "name") then Some (VStr (Author_name a))
  else if decide (k = "biography") then
    Some (match Author_biography a with Some s => VStr s | None => VNone end)
  else if decide (k = "date_of_birth") then
    Some (match Author_date_of_birth a with Some d => VDate d | None => VNone end)
  else None.

(** Assignment keeps the declared column types: the decoder hands over no
    other values.  The relationship attributes are not stored in the row. *)
Definition Author_setattr (k : string) (v : value) (a : Author) : Author :=
  if decide (k = "id") then
    match v with
    | VInt n => set_pk (Some n) a
    | VNone => set_pk None a
    | _ => a
    end
  else if decide (k = "name") then
    match v with
    | VStr s => {| Author_id := Author_id a; Author_name := s;
                   Author_biography := Author_biography a;
                   Author_date_of_birth := Author_date_of_birth a |}
    | _ => a
    end
  else if decide (k = "biography") then
    let set b := {| Author_id := Author_id a; Author_name := Author_name a;
                    Author_biography := b;
                    Author_date_of_birth := Author_date_of_birth a |} in
    match v with
    | VStr s => set (Some s)
    | VNone => set None
    | _ => a
    end
  else if decide (k = "date_of_birth") then
    let set d := {| Author_id := Author_id a; Author_name := Author_name a;
                    Author_biography := Author_biography a;
                    Author_date_of_birth := d |} in
    match v with
    | VDate d => set (Some d)
    | VNone => set None
    | _ => a
    end
  else a.

#[global] Instance Author_attrs : Attrs Author :=
  {| getattr := Author_getattr; setattr := Author_setattr |}.

Definition Book_getattr (k : string) (b : Book) : option value :=
  if decide (k = "id") then Some (value_of_pk (Book_id b))
  else if decide (k = "isbn") then Some (VStr (Book_isbn b))
  else if decide (k = "title") then Some (VStr (Book_title b))
  else if decide (k = "description") then Some (VStr (Book_description b))
  else if decide (k = "year") then Some (VInt (Book_year b))
  else if decide (k = "language") then Some (VStr (Book_language b))
  else if decide (k = "author_id") then Some (VInt (Book_author_id b))
  else if decide (k = "categories") then Some (VCategories (Book_categories b))
  else None.

(** Assignment changes the object and nothing else: what becomes of the
    assigned categories in the database is decided when the session is
    flushed, in [BookRepository_update]. *)
Definition Book_setattr (k : string) (v : value) (b : Book) : Book :=
  if decide (k = "id") then
    match v with
    | VInt n => set_pk (Some n) b
    | VNone => set_pk None b
    | _ => b
    end
  else if decide (k = "isbn") then
    match v with
    | VStr s => mkBook (Book_id b) s (Book_title b) (Book_description b) (Book_year b)
                  (Book_language b) (Book_author_id b) (Book_categories b)
    | _ => b
    end
  else if decide (k = "title") then
    match v with
    | VStr s => mkBook (Book_id b) (Book_isbn b) s (Book_description b) (Book_year b)
                  (Book_language b) (Book_author_id b) (Book_categories b)
    | _ => b
    end
  else if decide (k = "description") then
    match v with
    | VStr s => mkBook (Book_id b) (Book_isbn b) (Book_title b) s (Book_year b)
                  (Book_language b) (Book_author_id b) (Book_categories b)
    | _ => b
    end
  else if decide (k = "year") then
    match v with
    | VInt n => mkBook (Book_id b) (Book_isbn b) (Book_title b) (Book_description b) n
                  (Book_language b) (Book_author_id b) (Book_categories b)
    | _ => b
    end
  else if decide (k = "language") then
    match v with
    | VStr s => mkBook (Book_id b) (Book_isbn b) (Book_title b) (Book_description b)
                  (Book_year b) s (Book_author_id b) (Book_categories b)
    | _ => b
    end
  else if decide (k = "author_id") then
    match v with
    | VInt n => mkBook (Book_id b) (Book_isbn b) (Book_title b) (Book_description b)
                  (Book_year b) (Book_language b) n (Book_categories b)
    | _ => b
    end
  else if decide (k = "categories") then
    match v with
    | VCategories cs => mkBook (Book_id b) (Book_isbn b) (Book_title b)
                          (Book_description b) (Book_year b) (Book_language b)
                          (Book_author_id b) cs
    | _ => b
    end
  else b.

#[global] Instance Book_attrs : Attrs Book :=
  {| getattr := Book_getattr; setattr := Book_setattr |}.

(** What assignment by name owes to the fields of a mapped class: it leaves
    the other attributes alone, and a value of the field's type is read
    back. *)
Class AttrsLaws (A : Type) `{Attrs A} (fields : list FieldDefinition) : Prop := {
  getattr_setattr_ne (k k' : string) (v : value) (x : A) :
    k ≠ k' → getattr k (setattr k' v x) = getattr k x;
  getattr_setattr_eq (f : FieldDefinition) (v : value) (x : A) :
    f ∈ fields → holds_type (field_ty f) v = true →
    getattr (field_name f) (setattr (field_name f) v x) = Some v
}.

(** [DTOData.update_instance]: every validated field is assigned, in
    order. *)
Definition update_instance `{Attrs A} (data : DTOData) (instance : A) : A :=
  fold_left (λ obj kv, setattr kv.1 kv.2 obj) data instance.

(** A handler declared with [dto=...] and [data: DTOData[...]] runs on the
    decoded body; a body that fails validation never reaches it. *)
Definition with_dto `{!LaxDecoder} {A : Type} (cfg : SQLAlchemyDTOConfig)
    (fields : list FieldDefinition)
    (body : gmap string value) (handler : DTOData → Request A) : Request A :=
  match decode cfg fields body with
  | Some data => handler data
  | None => raise ValidationException
  end.

(** ** The controllers ([app/controlers.py]) *)

Definition set_return_date (d : option datetime) (l : Loan) : Loan :=
  {| Loan_id := Loan_id l; Loan_book_id := Loan_book_id l;
     Loan_client_id := Loan_client_id l; Loan_loan_date := Loan_loan_date l;
     Loan_return_date := d; Loan_fine := Loan_fine l |}.

Definition set_fine (f : option float) (l : Loan) : Loan :=
  {| Loan_id := Loan_id l; Loan_book_id := Loan_book_id l;
     Loan_client_id := Loan_client_id l; Loan_loan_date := Loan_loan_date l;
     Loan_return_date := Loan_return_date l; Loan_fine := f |}.

(** [Loan(book_id=..., client_id=..., loan_date=...)]: the attributes that
    are not passed are [None]. *)
Definition new_Loan (book_id client_id : Z) (loan_date : datetime) : Loan :=
  {| Loan_id := None; Loan_book_id := book_id; Loan_client_id := client_id;
     Loan_loan_date := loan_date; Loan_return_date := None; Loan_fine := None |}.

Section Controllers.

(** Modelled from the spec: the two domain queries of [BookRepository]
    ([app/repositories.py] is not in the tree) are parameters.  Both read
    the store and change nothing.  [search_by_title] yields the books whose
    title matches the text, the matching being left to the
    implementation; [is_book_available] is the availability signal of a
    book. *)
Variable search_by_title : string → Store → list Book.
Variable is_book_available : Z → Store → bool.
Context {lax : LaxDecoder} {flush : BookFlush}.

Definition BookRepository_search_by_title (title : string) : Request (list Book) :=
  λ st, (inr (search_by_title title st), st).

Definition BookRepository_is_book_available (book_id : Z) : Request bool :=
  λ st, (inr (is_book_available book_id st), st).

(** *** [AuthorController] *)

Definition list_authors : Request (list Author) :=
  AuthorRepository_list.

Definition get_author (author_id : Z) : Request Author :=
  author ← AuthorRepository_get author_id;
  match author with
  | None => raise (HTTPException [404] "El autor no existe" None)
  | Some author => mret author
  end.

Definition update_author (author_id : Z) (data : DTOData) : Request Author :=
  author ← AuthorRepository_get author_id;
  match author with
  | None => raise (HTTPException [404] "El autor no existe" None)
  | Some author =>
      let author := update_instance data author in
      AuthorRepository_update author
  end.

(** [PATCH /authors/{author_id}], declared with [dto=AuthorUpdateDTO] *)
Definition patch_author (author_id : Z) (body : gmap string value) : Request Author :=
  with_dto AuthorUpdateDTO Author_fields body (update_author author_id).

(** *** [BookController] *)

Definition list_books : Request (list Book) :=
  books ← BookRepository_list;
  if negb (truthy books) then raise (HTTPException [404] "No hay libros disponibles" None)
  else mret books.

Definition get_book (book_id : Z) : Request Book :=
  book ← BookRepository_get book_id;
  match book with
  | None => raise (HTTPException [404] "El libro no existe" None)
  | Some book => mret book
  end.

Definition update_book (book_id : Z) (data : DTOData) : Request Book :=
  book ← BookRepository_get book_id;
  match book with
  | None => raise (HTTPException [404] "El libro no existe" None)
  | Some book =>
      let book := update_instance data book in
      BookRepository_update book
  end.

(** [PATCH /books/{book_id}], declared with [dto=BookWriteDTO] *)
Definition patch_book (book_id : Z) (body : gmap string value) : Request Book :=
  with_dto BookWriteDTO Book_fields body (update_book book_id).

Definition search_books (title : string) : Request (list Book) :=
  books ← BookRepository_search_by_title title;
  if negb (truthy books)
  then raise (HTTPException [404] "No se encontraron libros con ese título" None)
  else mret books.

(** *** [ClientController] *)

Definition list_clients : Request (list Client) :=
  clients ← ClientRepository_list;
  if negb (truthy clients) then raise (HTTPException [404] "No hay clientes disponibles" None)
  else mret clients.

(** *** [LoanController] *)

(** The repositories that the controller provides to its handlers
    ([dependencies]); the application ([app/__init__.py]) declares none. *)
Definition LoanController_dependencies : list string := ["loans_repo"].

(** A handler is called once each of its parameters is filled.  A parameter
    that is neither part of the path nor provided as a dependency is looked
    for in the query string, where no repository can come from: the request
    is refused as not valid, and the handler does not run. *)
Definition inject {A : Type} (dependencies parameters : list string)
    (handler : Request A) : Request A :=
  if forallb (λ p, bool_decide (p ∈ dependencies)) parameters
  then handler
  else raise ValidationException.

(** [utcnow] is the value [datetime.utcnow()] returns in this request. *)
Definition create_loan (utcnow : datetime) (book_id client_id : Z) : Request Loan :=
  book ← BookRepository_get book_id;
  client ← ClientRepository_get client_id;
  if negb (truthy book) || negb (truthy client)
  then raise (HTTPException [404] "El libro o el cliente no existe" None)
  else
    available ← BookRepository_is_book_available book_id;
    if (available : bool)
    then raise (HTTPException [400] "No hay copias disponibles para préstamo" None)
    else
      let loan_date := utcnow in
      let loan := new_Loan book_id client_id loan_date in
      (* [loans_repo.add(loan)] assigns the id on [loan] itself *)
      loan ← LoanRepository_add loan;
      mret loan.

(** [POST /loans]: [create_loan] asks for [loans_repo], [books_repo] and
    [clients_repo]. *)
Definition LoanController_create_loan (utcnow : datetime) (book_id client_id : Z)
    : Request Loan :=
  inject LoanController_dependencies ["loans_repo"; "books_repo"; "clients_repo"]
         (create_loan utcnow book_id client_id).

Definition return_loan (utcnow : datetime) (loan_id : Z) : Request Loan :=
  loan ← LoanRepository_get loan_id;
  match loan with
  | None => raise (HTTPException [404] "El préstamo no existe" None)
  | Some loan =>
      if truthy (Loan_return_date loan)
      then raise (HTTPException [400] "El libro ya ha sido devuelto" None)
      else
        let return_date := utcnow in
        let loan := set_return_date (Some return_date) loan in
        match datetime_add (Loan_loan_date loan) (timedelta_days 7) with
        | None => raise OverflowError
        | Some due_date =>
            let loan :=
              if datetime_gt return_date due_date then
                let days_overdue := days (datetime_sub return_date due_date) in
                set_fine (Some (float_mul (float_of_int days_overdue) float_half)) loan
              else loan in
            LoanRepository_update loan
        end
  end.

(** [PATCH /loans/{loan_id}/return]: [return_loan] asks for [loans_repo]. *)
Definition LoanController_return_loan (utcnow : datetime) (loan_id : Z) : Request Loan :=
  inject LoanController_dependencies ["loans_repo"] (return_loan utcnow loan_id).

End Controllers.

(** A fine belongs to a returned loan only. *)
Definition fine_only_when_returned (l : Loan) : Prop :=
  Loan_return_date l = None → Loan_fine l = None.

(** A fine, when present, is a non-negative whole number of halves. *)
Definition fine_is_whole_halves (l : Loan) : Prop :=
  ∀ f, Loan_fine l = Some f → ∃ k, 0 ≤ k ∧ is_halves f k.

(** ** The POST handlers of authors and clients *)

Definition Client_fields : list FieldDefinition :=
  [ mkField "id" TInt None;
    mkField "name" TStr None;
    mkField "email" TStr None ].

Definition Client_getattr (k : string) (c : Client) : option value :=
  if decide (k = "id") then Some (value_of_pk (Client_id c))
  else if decide (k = "name") then Some (VStr (Client_name c))
  else if decide (k = "email") then Some (VStr (Client_email c))
  else None.

Definition Client_setattr (k : string) (v : value) (c : Client) : Client :=
  if decide (k = "id") then
    match v with
    | VInt n => set_pk (Some n) c
    | VNone => set_pk None c
    | _ => c
    end
  else if decide (k = "name") then
    match v with
    | VStr s => mkClient (Client_id c) s (Client_email c)
    | _ => c
    end
  else if decide (k = "email") then
    match v with
    | VStr s => mkClient (Client_id c) (Client_name c) s
    | _ => c
    end
  else c.

#[global] Instance Client_attrs : Attrs Client :=
  {| getattr := Client_getattr; setattr := Client_setattr |}.

(** The value that decoded data holds under a name. *)
Definition data_get (k : string) (data : DTOData) : option value :=
  snd <$> List.find (λ kv, bool_decide (kv.1 = k)) data.

(** The [Author] that a handler declared with [data: Author] receives,
    built from the decoded data as keyword arguments: the attributes the data names are assigned, the
    others are [None].  The name column is not nullable and the write view
    demands it, so decoded data always has one. *)
Definition new_Author (data : DTOData) : option Author :=
  match data_get "name" data with
  | Some (VStr name) => Some (update_instance data (mkAuthor None name None None))
  | _ => None
  end.

(** The [Client] built from the decoded data in the same way. *)
Definition new_Client (data : DTOData) : option Client :=
  match data_get "name" data, data_get "email" data with
  | Some (VStr name), Some (VStr email) =>
      Some (update_instance data (mkClient None name email))
  | _, _ => None
  end.

Definition AuthorRepository_add := repo_add authors_table.
Definition ClientRepository_add := repo_add clients_table.

Definition create_author (data : Author) : Request Author :=
  AuthorRepository_add data.

Definition create_client (data : Client) : Request Client :=
  ClientRepository_add data.

(** A handler declared with [dto=...] and [data: Model] runs on the
    instance built from the decoded body. *)
Definition with_model_dto `{!LaxDecoder} {A B : Type} (cfg : SQLAlchemyDTOConfig)
    (fields : list FieldDefinition) (body : gmap string value)
    (build : DTOData → option A) (handler : A → Request B) : Request B :=
  match decode cfg fields body with
  | Some data =>
      match build data with
      | Some instance => handler instance
      | None => raise ValidationException
      end
  | None => raise ValidationException
  end.

(** [POST /authors], declared with [dto=AuthorWriteDTO] *)
Definition post_author `{!LaxDecoder} (body : gmap string value) : Request Author :=
  with_model_dto AuthorWriteDTO Author_fields body new_Author create_author.

(** [POST /clients], declared with [dto=ClientWriteDTO] *)
Definition post_client `{!LaxDecoder} (body : gmap string value) : Request Client :=
  with_model_dto ClientWriteDTO Client_fields body new_Client create_client.

(** What a body holds for a field that must be there, and for a field that
    may be left out. *)
Definition supplied `{!LaxDecoder} (ty : field_type) (k : string) (body : gmap string value) : bool :=
  match body !! k with
  | Some v => has_type ty v
  | None => false
  end.

Definition acceptable `{!LaxDecoder} (ty : field_type) (k : string) (body : gmap string value) : bool :=
  match body !! k with
  | Some v => has_type ty v
  | None => true
  end.

(** Whether a field passes the validation of a body. *)
Definition field_ok `{!LaxDecoder} (cfg : SQLAlchemyDTOConfig) (body : gmap string value)
    (f : FieldDefinition) : bool :=
  bool_decide (field_name f ∈ exclude cfg)
  || match body !! field_name f with
     | Some v => has_type (field_ty f) v
     | None => partial cfg || match field_default f with Some _ => true | None => false end
     end.


Definition AuthorUpdateDTO_accepts `{!LaxDecoder} (body : gmap string value) : bool :=
  acceptable TStr "name" body && acceptable (TOptional TStr) "biography" body
  && acceptable (TOptional TDate) "date_of_birth" body.

Definition AuthorWriteDTO_accepts `{!LaxDecoder} (body : gmap string value) : bool :=
  supplied TStr "name" body && acceptable (TOptional TStr) "biography" body
  && acceptable (TOptional TDate) "date_of_birth" body.

Definition ClientWriteDTO_accepts `{!LaxDecoder} (body : gmap string value) : bool :=
  supplied TStr "name" body && supplied TStr "email" body.

(** An optional string or date of a body, [None] when left out or null. *)
Definition body_str (k : string) (body : gmap string value) : option string :=
  match body !! k with Some (VStr s) => Some s | _ => None end.

Definition body_date (k : string) (body : gmap string value) : option date :=
  match body !! k with Some (VDate d) => Some d | _ => None end.

(** Every book refers to an author of the store (the foreign key of
    [Book.author_id]). *)
Definition books_have_authors (st : Store) : Prop :=
  ∀ b, b ∈ books st → ∃ a, a ∈ authors st ∧ Author_id a = Some (Book_author_id b).

(** ** The two book queries, as the spec words them *)

(** Modelled from the spec: [BookRepository.is_book_available]
    ([app/repositories.py] is not in the tree) tells whether the book
    currently has no outstanding (unreturned) loan. *)
Definition no_outstanding_loan (book_id : Z) (st : Store) : bool :=
  forallb (λ l, negb (bool_decide (Loan_book_id l = book_id)) || truthy (Loan_return_date l))
          (loans st).

(** [needle in s] *)
Fixpoint contains (needle s : string) : bool :=
  String.prefix needle s ||
  match s with
  | EmptyString => false
  | String _ s' => contains needle s'
  end.

(** Modelled from the spec: [BookRepository.search_by_title]
    ([app/repositories.py] is not in the tree) returns all books whose title
    matches the text; the matching is left open, and this is the
    case-sensitive substring reading. *)
Definition title_contains (title : string) (st : Store) : list Book :=
  List.filter (λ b, contains title (Book_title b)) (books st).

(** ** A decoder and a flush, used to run the handlers *)

Definition digit_of (c : Ascii.ascii) : option Z :=
  let n := Z.of_N (Ascii.N_of_ascii c) in
  if (48 <=? n) && (n <=? 57) then Some (n - 48) else None.

Fixpoint digits_to_int (s : string) (acc : Z) : option Z :=
  match s with
  | EmptyString => Some acc
  | String c s' =>
      match digit_of c with
      | Some d => digits_to_int s' (10 * acc + d)
      | None => None
      end
  end.

(** Decimal numerals, with an optional minus sign. *)
Definition decimal_to_int (s : string) : option Z :=
  match s with
  | EmptyString => None
  | String c s' =>
      (* 45 is the minus sign *)
      if Z.of_N (Ascii.N_of_ascii c) =? 45
      then match s' with
           | EmptyString => None
           | _ => Z.opp <$> digits_to_int s' 0
           end
      else digits_to_int s 0
  end.

Definition decimal_decoder : LaxDecoder := decimal_to_int.

(** The ids of the categories that the books of the store hold. *)
Definition category_ids (st : Store) : list Z :=
  omap Category_id (mjoin (Book_categories <$> books st)).

(** Modelled from the spec: [app/repositories.py] is not in the tree.  A
    flush to run [update] with, over a store that keeps the categories with
    the books: a category that is assigned with the id of a category of the
    store breaks the primary key of [categories]; any other assignment is
    written with the row of the book. *)
Definition keyed_flush : BookFlush := λ book st,
  if existsb (λ c, match Category_id c with
                   | Some id => bool_decide (id ∈ category_ids st)
                   | None => false
                   end) (Book_categories book)
  then inl IntegrityError
  else inr (set_books (replace_row book (books st)) st).

(** ** A small library, used to run the handlers *)

(** 2024-01-01T00:00:00 ([date(2024, 1, 1).toordinal()] is 738886) *)
Definition t_2024_01_01 : datetime := (738886 - 1) * us_per_day.

Definition tolkien : Author :=
  mkAuthor (Some 1) "J. R. R. Tolkien" (Some "Philologist") (Some 690676).
Definition le_guin : Author :=
  mkAuthor (Some 2) "Ursula K. Le Guin" None None.

Definition hobbit : Book :=
  mkBook (Some 1) "9780261102217" "The Hobbit" "There and back again" 1937 "en" 1
         [mkCategory (Some 1) "Fantasy"].

Definition ana : Client := mkClient (Some 1) "Ana" "ana@example.org".

Definition open_loan : Loan :=
  mkLoan (Some 1) 1 1 t_2024_01_01 None None.
Definition closed_loan : Loan :=
  mkLoan (Some 2) 1 1 t_2024_01_01 (Some (t_2024_01_01 + 9 * us_per_day)) (Some float_one).

Definition library : Store :=
  {| authors := [tolkien; le_guin]; books := [hobbit]; clients := [ana];
     loans := [open_loan; closed_loan] |}.

Definition empty_library : Store :=
  {| authors := []; books := []; clients := []; loans := [] |}.

(** A library whose only book has no loan yet. *)
Definition fresh_library : Store :=
  {| authors := [tolkien; le_guin]; books := [hobbit]; clients := [ana]; loans := [] |}.

(** Request bodies.  The first names every field of the write view of a
    book and moves the book to the second author. *)
Definition hobbit_reassigned : gmap string value :=
  list_to_map
    [ ("isbn", VStr "9780261102217"); ("title", VStr "The Hobbit");
      ("description", VStr "There and back again"); ("year", VInt 1937);
      ("language", VStr "en"); ("author_id", VInt 2);
      ("categories", VCategories [mkCategory (Some 1) "Fantasy"]) ].

Definition title_only : gmap string value :=
  list_to_map [ ("title", VStr "The Hobbit, or There and Back Again") ].

Definition name_only : gmap string value :=
  list_to_map [ ("name", VStr "John Ronald Reuel Tolkien") ].

(** One hour past the due date of [open_loan] *)
Definition one_hour_late : datetime :=
  t_2024_01_01 + 7 * us_per_day + 3600 * us_per_second.

(** [hobbit] under the second author, as [hobbit_reassigned] leaves it. *)
Definition hobbit_moved : Book :=
  mkBook (Some 1) "9780261102217" "The Hobbit" "There and back again" 1937 "en" 2
         [mkCategory (Some 1) "Fantasy"].

(** [hobbit_reassigned] with the year as a string. *)
Definition hobbit_year_as_text : gmap string value :=
  <["year" := VStr "1937"]> hobbit_reassigned.

(** A body that sets the biography to null. *)
Definition biography_null : gmap string value :=
  list_to_map [ ("biography", VNone) ].

(** A loan taken out in the last microsecond of year 9999. *)
Definition last_loan : Loan := mkLoan (Some 1) 1 1 datetime_max None None.

Definition last_library : Store :=
  {| authors := [tolkien]; books := [hobbit]; clients := [ana]; loans := [last_loan] |}.

(** [open_loan] after a return nine days after the loan. *)
Definition returned_late : Loan :=
  mkLoan (Some 1) 1 1 t_2024_01_01 (Some (t_2024_01_01 + 9 * us_per_day)) (Some float_one).

(** ** Properties *)

(** Unfolds a handler down to the tables. *)
Ltac run_handler :=
  unfold mbind, mret, Request_bind, Request_ret, raise,
    BookRepository_search_by_title, BookRepository_is_book_available,
    AuthorRepository_list, AuthorRepository_get, AuthorRepository_update,
    BookRepository_list, BookRepository_get, BookRepository_update,
    ClientRepository_list, ClientRepository_get,
    LoanRepository_get, LoanRepository_add, LoanRepository_update,
    repo_list, repo_get, repo_add, repo_update; cbn [rows set_rows
    authors_table books_table clients_table loans_table].

(** Shows that a field is one of a list of fields. *)
Ltac in_list := repeat first [apply list_elem_of_here | apply list_elem_of_further].

Section HandlerProperties.
Context {lax : LaxDecoder} {flush : BookFlush}.


(** *** Rows and tables *)

Section Rows.
Context {A : Type} `{Model A}.

Lemma find_row_pk (id : Z) (rs : list A) (x : A) :
  find_row id rs = Some x → pk x = Some id.
Proof.
  unfold find_row. intros Hfind. apply find_some in Hfind as [_ Hpk].
  by apply bool_decide_eq_true in Hpk.
Qed.

Lemma find_row_In (id : Z) (rs : list A) (x : A) :
  find_row id rs = Some x → x ∈ rs.
Proof.
  unfold find_row. intros Hfind. apply find_some in Hfind as [Hin _].
  by apply list_elem_of_In.
Qed.

(** After an update the row is found under its key, with the new
    contents. *)
Lemma find_row_replace_row (id : Z) (rs : list A) (x x' : A) :
  find_row id rs = Some x → pk x' = Some id →
  find_row id (replace_row x' rs) = Some x'.
Proof.
  unfold find_row, replace_row. intros Hfind Hpk. rewrite Hpk.
  induction rs as [|r rs IH]; [done|]. cbn in *.
  destruct (bool_decide (pk r = Some id)) eqn:Hr; cbn.
  - by rewrite Hpk, bool_decide_eq_true_2.
  - rewrite Hr. by apply IH.
Qed.

(** The rows under the other keys stay as they were. *)
Lemma find_row_replace_row_ne (id : Z) (rs : list A) (x' : A) :
  pk x' ≠ Some id →
  find_row id (replace_row x' rs) = find_row id rs.
Proof.
  unfold find_row, replace_row. intros Hpk.
  induction rs as [|r rs IH]; [done|]. cbn.
  destruct (bool_decide (pk r = pk x')) eqn:Hr; cbn.
  - apply bool_decide_eq_true in Hr.
    rewrite !bool_decide_eq_false_2 by congruence. apply IH.
  - by rewrite IH.
Qed.

Lemma replace_row_length (x : A) (rs : list A) :
  length (replace_row x rs) = length rs.
Proof. unfold replace_row. by rewrite length_fmap. Qed.

Lemma fresh_pk_above (rs : list A) (r : A) (k : Z) :
  r ∈ rs → pk r = Some k → k < fresh_pk rs.
Proof.
  unfold fresh_pk. intros Hin Hk.
  induction Hin as [r rs|r r' rs Hin IH]; cbn.
  - rewrite Hk. cbn. lia.
  - specialize (IH Hk). lia.
Qed.

(** A row appended under a key that was not in use is found there. *)
Lemma find_row_app_fresh (id : Z) (rs : list A) (x : A) :
  find_row id rs = None → pk x = Some id → find_row id (rs ++ [x]) = Some x.
Proof.
  unfold find_row. intros Hnone Hpk.
  induction rs as [|r rs IH]; cbn in *.
  - by rewrite bool_decide_eq_true_2.
  - destruct (bool_decide (pk r = Some id)); [done|]. by apply IH.
Qed.

(** The key handed out by [add] is not in use. *)
Lemma find_row_fresh_pk (rs : list A) : find_row (fresh_pk rs) rs = None.
Proof.
  destruct (find_row (fresh_pk rs) rs) as [x|] eqn:Hfind; [|done].
  pose proof (fresh_pk_above rs x (fresh_pk rs)
                (find_row_In _ _ _ Hfind) (find_row_pk _ _ _ Hfind)). lia.
Qed.
End Rows.

(** *** Time arithmetic *)

Lemma total_us_of_us (us : Z) : total_us (timedelta_of_us us) = us.
Proof.
  unfold total_us, timedelta_of_us; cbn [days seconds microseconds].
  assert (Hday : us_per_day = 86400 * us_per_second) by reflexivity.
  assert (Hsec : 0 < us_per_second) by reflexivity.
  pose proof (Z.div_mod us us_per_day) as H1.
  pose proof (Z.div_mod (us mod us_per_day) us_per_second) as H2.
  assert (Hmm : (us mod us_per_day) mod us_per_second = us mod us_per_second).
  { rewrite (Z.mod_eq us us_per_day) by (rewrite Hday; lia).
    replace (us - us_per_day * (us / us_per_day))
      with (us + (- (us / us_per_day) * 86400) * us_per_second) by (rewrite Hday; lia).
    apply Z.mod_add. lia. }
  rewrite Hmm in H2. unfold us_per_day, us_per_second in *. lia.
Qed.

Lemma total_us_days (n : Z) : total_us (timedelta_days n) = n * us_per_day.
Proof. apply total_us_of_us. Qed.

Lemma datetime_add_days (d n r : Z) :
  datetime_add d (timedelta_days n) = Some r →
  r = d + n * us_per_day ∧ valid_datetime r.
Proof.
  unfold datetime_add, valid_datetime. rewrite total_us_days. cbn zeta.
  destruct (0 <=? d + n * us_per_day) eqn:H0; [|done].
  destruct (d + n * us_per_day <=? datetime_max) eqn:H1; [|done].
  cbn. intros [= <-]. lia.
Qed.

(** On a positive gap the day count of [timedelta] (a floor) is the
    truncation toward zero. *)
Lemma days_overdue_truncates (return_date due_date : Z) :
  due_date < return_date →
  days (datetime_sub return_date due_date)
  = Z.quot (return_date - due_date) us_per_day.
Proof.
  intros Hlt. unfold datetime_sub, timedelta_of_us; cbn [days].
  symmetry. apply Z.quot_div_nonneg; [lia | reflexivity].
Qed.

(** *** The float literals *)

Example float_half_value : is_halves float_half 1.
Proof. reflexivity. Qed.

Example float_one_value : is_halves float_one 2.
Proof. reflexivity. Qed.

Example float_zero_value : is_halves float_zero 0.
Proof. reflexivity. Qed.

(** **** [n * 0.5] is exact

    An [int] below [2^53] converts to a float without rounding, and halving
    a float of the normal range only lowers its exponent. *)

Lemma digits2_pos_iter_xO (p k : positive) :
  Z.pos (digits2_pos (Pos.iter xO p k)) = Z.pos (digits2_pos p) + Z.pos k.
Proof.
  induction k as [|k IH] using Pos.peano_ind.
  - cbn. lia.
  - rewrite Pos.iter_succ. cbn [digits2_pos]. lia.
Qed.

Lemma iter_xO_value (p k : positive) :
  Z.pos (Pos.iter xO p k) = Z.pos p * 2 ^ Z.pos k.
Proof.
  induction k as [|k IH] using Pos.peano_ind.
  - cbn. lia.
  - rewrite Pos.iter_succ, Pos2Z.inj_succ, Z.pow_succ_r by lia.
    rewrite Pos2Z.inj_xO, IH. lia.
Qed.

Lemma digits2_pos_bound (p : positive) :
  2 ^ (Z.pos (digits2_pos p) - 1) <= Z.pos p < 2 ^ Z.pos (digits2_pos p).
Proof.
  induction p as [p IH|p IH|]; cbn [digits2_pos]; [| |cbn; lia].
  all: rewrite Pos2Z.inj_succ;
    replace (Z.succ (Z.pos (digits2_pos p)) - 1)
      with (Z.succ (Z.pos (digits2_pos p) - 1)) by lia;
    rewrite !Z.pow_succ_r by lia; lia.
Qed.

(** A mantissa of 53 digits with an exponent of the normal range is left
    alone by the rounding. *)
Lemma binary_round_aux_canonical (s : bool) (m : positive) (e : Z) :
  Z.pos (digits2_pos m) = 53 → -1074 <= e <= 971 →
  binary_round_aux float_prec float_emax s (Z.pos m) e loc_Exact = S754_finite s m e.
Proof.
  intros Hd He. unfold binary_round_aux, shr_fexp. cbn [Zdigits2 shr_record_of_loc].
  rewrite Hd.
  assert (Hf : fexp float_prec float_emax (53 + e) - e = 0).
  { unfold fexp, emin, float_prec, float_emax. lia. }
  rewrite Hf. cbn [shr shr_m loc_of_shr_record round_nearest_even Zdigits2].
  rewrite Hd, Hf. cbn [shr shr_m].
  unfold float_emax, float_prec.
  destruct (e <=? 1024 - 53) eqn:Hle; [done|]. apply Z.leb_gt in Hle. lia.
Qed.

(** The conversion of a positive [int] of at most 53 bits shifts it to a
    53-digit mantissa. *)
Lemma float_of_int_pos (p : positive) :
  Z.pos (digits2_pos p) <= 53 →
  ∃ m : positive,
    float_of_int (Z.pos p) = S754_finite false m (Z.pos (digits2_pos p) - 53)
    ∧ Z.pos (digits2_pos m) = 53
    ∧ Z.pos m = Z.pos p * 2 ^ (53 - Z.pos (digits2_pos p)).
Proof.
  intros Hd. unfold float_of_int, binary_normalize, binary_round.
  set (d := Z.pos (digits2_pos p)) in *.
  assert (Hf : fexp float_prec float_emax (d + 0) = d - 53).
  { unfold fexp, emin, float_prec, float_emax. lia. }
  rewrite Hf. unfold shl_align.
  destruct (d - 53 - 0) as [|q|q] eqn:Hq; [|lia|].
  - exists p. assert (d = 53) as Hd53 by lia.
    split; [|split; [done|]].
    + replace (d - 53) with 0 by lia. apply binary_round_aux_canonical; [done|lia].
    + replace (53 - d) with 0 by lia. lia.
  - exists (Pos.iter xO p q).
    assert (Hdig : Z.pos (digits2_pos (Pos.iter xO p q)) = 53).
    { rewrite digits2_pos_iter_xO. fold d. lia. }
    split; [|split; [done|]].
    + apply binary_round_aux_canonical; [done|lia].
    + rewrite iter_xO_value. f_equal. f_equal. lia.
Qed.

Lemma mul_pow52 (m : positive) :
  (m * 4503599627370496)%positive = Pos.iter xO m 52.
Proof.
  apply Pos2Z.inj. rewrite iter_xO_value, Pos2Z.inj_mul. reflexivity.
Qed.

(** [x * 0.5] on a normal float *)
Lemma float_mul_half (m : positive) (e : Z) :
  Z.pos (digits2_pos m) = 53 → -1000 <= e <= 900 →
  float_mul (S754_finite false m e) float_half = S754_finite false m (e - 1).
Proof.
  intros Hd He. unfold float_mul, float_half, SFmul. cbn [xorb].
  rewrite mul_pow52. unfold binary_round_aux, shr_fexp.
  cbn [Zdigits2 shr_record_of_loc].
  rewrite digits2_pos_iter_xO, Hd.
  assert (Hf : fexp float_prec float_emax (53 + 52 + (e + -53)) - (e + -53) = 52).
  { unfold fexp, emin, float_prec, float_emax. lia. }
  rewrite Hf. cbn -[fexp Z.add Z.sub].
  rewrite Hd.
  assert (Hf' : fexp float_prec float_emax (53 + (e + -53 + 52)) - (e + -53 + 52) = 0).
  { unfold fexp, emin, float_prec, float_emax. lia. }
  rewrite Hf'. cbn [shr shr_m].
  unfold float_emax, float_prec.
  destruct (e + -53 + 52 <=? 1024 - 53) eqn:Hle; [|apply Z.leb_gt in Hle; lia].
  f_equal. lia.
Qed.

(** For every day count below [2^53] the product [days_overdue * 0.5] is
    exactly the half of the count. *)
Lemma fine_is_exact_half (n : Z) :
  0 <= n < 2 ^ 53 → is_halves (float_mul (float_of_int n) float_half) n.
Proof.
  intros [Hn0 Hn]. destruct n as [|p|p]; [reflexivity| |lia].
  pose proof (digits2_pos_bound p) as [Hlo _].
  assert (Hd : Z.pos (digits2_pos p) <= 53).
  { destruct (Z_le_gt_dec (Z.pos (digits2_pos p)) 53) as [|Hgt]; [done|].
    assert (2 ^ 53 <= 2 ^ (Z.pos (digits2_pos p) - 1)) by (apply Z.pow_le_mono_r; lia).
    lia. }
  destruct (float_of_int_pos p Hd) as (m & -> & Hm & Hval).
  rewrite float_mul_half by (done || lia).
  unfold is_halves, float_value.
  destruct (0 <=? Z.pos (digits2_pos p) - 53 - 1) eqn:He; [apply Z.leb_le in He; lia|].
  rewrite Hval.
  replace (- (Z.pos (digits2_pos p) - 53 - 1))
    with (Z.succ (53 - Z.pos (digits2_pos p))) by lia.
  rewrite Z.pow_succ_r by lia. lia.
Qed.

(** The day count of a gap between two datetimes is far below [2^53]. *)
Lemma days_overdue_bound (return_date due_date : Z) :
  0 <= due_date → due_date < return_date <= datetime_max →
  0 <= Z.quot (return_date - due_date) us_per_day < 2 ^ 53.
Proof.
  intros Hdue [Hlt Hmax].
  rewrite Z.quot_div_nonneg by (lia || reflexivity).
  assert (Hday : 0 < us_per_day) by reflexivity.
  split; [apply Z.div_pos; lia|].
  apply Z.div_lt_upper_bound; [done|].
  unfold datetime_max, us_per_day, us_per_second in *. lia.
Qed.

(** *** Creating a loan *)

Section LoanProperties.

Variable is_book_available : Z → Store → bool.

(** C1, as the code has it.  The handler of a loan request, for an
    existing book and an existing client, refuses the loan with the message
    "No hay copias disponibles para préstamo" when the availability check
    answers true, and leaves the store as it was; the exception carries
    status 500 and not 400, the 400 being passed positionally where the
    constructor takes the status by keyword.  When the check answers false
    the loan built from the book, the client and the current time is
    appended to the loans under a fresh id and returned.  The route itself
    refuses every request before the handler runs: the controller provides
    the loans repository only. *)
Theorem create_loan_availability_gate
    (utcnow book_id client_id : Z) (st : Store) (book : Book) (client : Client) :
  find_row book_id (books st) = Some book →
  find_row client_id (clients st) = Some client →
  (is_book_available book_id st = true →
     let e := HTTPError 500 "No hay copias disponibles para préstamo" [400] in
     create_loan is_book_available utcnow book_id client_id st = (inl e, st)
     ∧ status_of e = 500)
  ∧ (is_book_available book_id st = false →
     let loan := set_pk (Some (fresh_pk (loans st)))
                        (new_Loan book_id client_id utcnow) in
     create_loan is_book_available utcnow book_id client_id st
     = (inr loan, set_loans (loans st ++ [loan]) st))
  ∧ LoanController_create_loan is_book_available utcnow book_id client_id st
    = (inl ValidationException, st).
Proof.
  intros Hbook Hclient. split_and!; [| |done].
  - intros Havail. unfold create_loan. run_handler.
    rewrite Hbook, Hclient. cbn. by rewrite Havail.
  - intros Havail. unfold create_loan. run_handler.
    rewrite Hbook, Hclient. cbn. by rewrite Havail.
Qed.

(** C4, as the code has it.  The handler of a loan request whose book or
    whose client does not exist fails with the message "El libro o el
    cliente no existe" and leaves the store, and so the loans, as it was;
    the exception carries status 500 and not 404, the 404 being passed
    positionally where the constructor takes the status by keyword.  The
    route itself refuses the request before the handler runs, as not
    valid. *)
Theorem create_loan_missing_entity
    (utcnow book_id client_id : Z) (st : Store) :
  find_row book_id (books st) = None ∨ find_row client_id (clients st) = None →
  let e := HTTPError 500 "El libro o el cliente no existe" [404] in
  create_loan is_book_available utcnow book_id client_id st = (inl e, st)
  ∧ status_of e = 500
  ∧ LoanController_create_loan is_book_available utcnow book_id client_id st
    = (inl ValidationException, st).
Proof.
  intros H. split_and!; [|done..]. unfold create_loan. run_handler.
  destruct H as [-> | ->]; [done|].
  by destruct (find_row book_id (books st)).
Qed.

(** C5. When creation proceeds, the loan that is persisted (and returned)
    has the current timestamp as loan_date, the given book and client,
    no return_date and no fine; it is the last row of the loans table,
    found there under a fresh id, and the other tables are untouched. *)
Theorem create_loan_persists_new_loan
    (utcnow book_id client_id : Z) (st : Store) (book : Book) (client : Client) :
  find_row book_id (books st) = Some book →
  find_row client_id (clients st) = Some client →
  is_book_available book_id st = false →
  ∃ (loan : Loan) (st' : Store),
    create_loan is_book_available utcnow book_id client_id st = (inr loan, st')
    ∧ loans st' = loans st ++ [loan]
    ∧ Loan_loan_date loan = utcnow
    ∧ Loan_book_id loan = book_id
    ∧ Loan_client_id loan = client_id
    ∧ Loan_return_date loan = None
    ∧ Loan_fine loan = None
    ∧ Loan_id loan = Some (fresh_pk (loans st))
    ∧ find_row (fresh_pk (loans st)) (loans st') = Some loan
    ∧ authors st' = authors st ∧ books st' = books st ∧ clients st' = clients st.
Proof.
  intros Hbook Hclient Havail. unfold create_loan. run_handler.
  rewrite Hbook, Hclient. cbn. rewrite Havail.
  eexists _, _. split; [reflexivity|]. cbn [loans set_loans authors books clients].
  split_and!; try done.
  apply find_row_app_fresh; [apply find_row_fresh_pk | done].
Qed.

End LoanProperties.

(** *** Returning a loan *)

(** What [return_loan] does to a loan that is still out, once the due date
    is known. *)
Lemma return_loan_open (utcnow loan_id : Z) (st : Store) (loan : Loan) (due_date : Z) :
  find_row loan_id (loans st) = Some loan →
  Loan_return_date loan = None →
  datetime_add (Loan_loan_date loan) (timedelta_days 7) = Some due_date →
  let returned := set_return_date (Some utcnow) loan in
  let loan' :=
    if datetime_gt utcnow due_date
    then set_fine (Some (float_mul (float_of_int (days (datetime_sub utcnow due_date)))
                                   float_half)) returned
    else returned in
  return_loan utcnow loan_id st
  = (inr loan', set_loans (replace_row loan' (loans st)) st).
Proof.
  intros Hfind Hout Hdue. unfold return_loan. run_handler.
  rewrite Hfind. cbn. rewrite Hout. cbn. rewrite Hdue. reflexivity.
Qed.

(** A loan so late in year 9999 that its due date is not a [datetime]:
    the addition raises, before anything is persisted. *)
Lemma return_loan_overflow (utcnow loan_id : Z) (st : Store) (loan : Loan) :
  find_row loan_id (loans st) = Some loan →
  Loan_return_date loan = None →
  datetime_add (Loan_loan_date loan) (timedelta_days 7) = None →
  return_loan utcnow loan_id st = (inl OverflowError, st).
Proof.
  intros Hfind Hout Hdue. unfold return_loan. run_handler.
  rewrite Hfind. cbn. rewrite Hout. cbn. by rewrite Hdue.
Qed.

(** C2. Returning a loan that is still out: the due date is loan_date plus
    7 days; the loan is persisted with the return timestamp; a fine is
    set only when the return timestamp is strictly after the due date, and
    is then the float product of the whole days overdue (the gap in days,
    truncated toward zero) and 0.5, which is exactly half the day count;
    otherwise the fine is left as it was, absent if it was absent.  Exactly 7 days after loan_date there is no
    fine, 9 days after loan_date the fine is 1.0. *)
Theorem return_loan_fine (utcnow loan_id : Z) (st : Store) (loan : Loan) (due_date : Z) :
  find_row loan_id (loans st) = Some loan →
  Loan_return_date loan = None →
  datetime_add (Loan_loan_date loan) (timedelta_days 7) = Some due_date →
  due_date = Loan_loan_date loan + 7 * us_per_day
  ∧ ∃ loan' : Loan,
      return_loan utcnow loan_id st
      = (inr loan', set_loans (replace_row loan' (loans st)) st)
      ∧ find_row loan_id (replace_row loan' (loans st)) = Some loan'
      ∧ Loan_return_date loan' = Some utcnow
      ∧ (due_date < utcnow →
         let days_overdue := Z.quot (utcnow - due_date) us_per_day in
         let fine := float_mul (float_of_int days_overdue) float_half in
         Loan_fine loan' = Some fine
         ∧ (utcnow ≤ datetime_max → is_halves fine days_overdue))
      ∧ (utcnow ≤ due_date → Loan_fine loan' = Loan_fine loan)
      ∧ (Loan_fine loan = None →
         utcnow = Loan_loan_date loan + 7 * us_per_day → Loan_fine loan' = None)
      ∧ (utcnow = Loan_loan_date loan + 9 * us_per_day →
         Loan_fine loan' = Some float_one).
Proof.
  intros Hfind Hout Hdue.
  pose proof (return_loan_open utcnow _ _ _ _ Hfind Hout Hdue) as Hrun.
  cbn zeta in Hrun.
  apply datetime_add_days in Hdue as [Hdue [Hdue0 _]]. split; [done|].
  eexists. split; [exact Hrun|].
  assert (Hpk : ∀ l, pk (A:=Loan) l = Some loan_id →
                     find_row loan_id (replace_row l (loans st)) = Some l)
    by (intros l; by apply find_row_replace_row with loan).
  apply find_row_pk in Hfind as Hid.
  unfold datetime_gt. destruct (due_date <? utcnow) eqn:Hcmp.
  - apply Z.ltb_lt in Hcmp.
    split; [by apply Hpk|]. split; [done|]. cbn [Loan_fine set_fine].
    rewrite days_overdue_truncates by done.
    split.
    { intros _. cbn zeta. split; [done|]. intros Hmax.
      apply fine_is_exact_half, days_overdue_bound; lia. }
    split; [lia|]. split; [lia|].
    intros ->. subst due_date.
    replace (Loan_loan_date loan + 9 * us_per_day - (Loan_loan_date loan + 7 * us_per_day))
      with (2 * us_per_day) by lia.
    reflexivity.
  - apply Z.ltb_ge in Hcmp.
    split; [by apply Hpk|]. split; [done|]. cbn [Loan_fine set_return_date].
    split; [lia|]. split; [done|]. split; [done|].
    intros ->. subst due_date. unfold us_per_day, us_per_second in Hcmp. lia.
Qed.

(** C10. A return that is late by less than one whole day sets a fine, and
    the fine is 0.0: the overdue day count truncates to 0.  The fine is
    present although nothing is owed. *)
Theorem return_loan_zero_fine (utcnow loan_id : Z) (st : Store) (loan : Loan) (due_date : Z) :
  find_row loan_id (loans st) = Some loan →
  Loan_return_date loan = None →
  datetime_add (Loan_loan_date loan) (timedelta_days 7) = Some due_date →
  due_date < utcnow < due_date + us_per_day →
  Z.quot (utcnow - due_date) us_per_day = 0
  ∧ ∃ loan' : Loan,
      return_loan utcnow loan_id st
      = (inr loan', set_loans (replace_row loan' (loans st)) st)
      ∧ Loan_fine loan' = Some float_zero
      ∧ float_value float_zero = Some (0, 0).
Proof.
  intros Hfind Hout Hdue [Hlate Hday].
  pose proof (return_loan_open utcnow _ _ _ _ Hfind Hout Hdue) as Hrun.
  cbn zeta in Hrun.
  assert (Hq : Z.quot (utcnow - due_date) us_per_day = 0)
    by (apply Z.quot_small; lia).
  split; [done|]. eexists. split; [exact Hrun|].
  unfold datetime_gt. rewrite (proj2 (Z.ltb_lt _ _) Hlate).
  cbn [Loan_fine set_fine]. rewrite days_overdue_truncates, Hq by done.
  done.
Qed.

(** C3, as the code has it.  Returning a loan that already has a
    return_date fails with the message "El libro ya ha sido devuelto"; the
    store is left as it was, so the loan keeps its stored return_date and
    fine.  The exception carries status 500 and not 400, the 400 being
    passed positionally where the constructor takes the status by
    keyword. *)
Theorem return_loan_already_returned
    (utcnow loan_id : Z) (st : Store) (loan : Loan) (returned : Z) :
  find_row loan_id (loans st) = Some loan →
  Loan_return_date loan = Some returned →
  let e := HTTPError 500 "El libro ya ha sido devuelto" [400] in
  return_loan utcnow loan_id st = (inl e, st)
  ∧ status_of e = 500
  ∧ let st' := (return_loan utcnow loan_id st).2 in
    Loan_return_date <$> find_row loan_id (loans st') = Some (Some returned)
    ∧ Loan_fine <$> find_row loan_id (loans st') = Some (Loan_fine loan).
Proof.
  intros Hfind Hret.
  assert (Hrun : return_loan utcnow loan_id st
                 = (inl (HTTPError 500 "El libro ya ha sido devuelto" [400]), st)).
  { unfold return_loan. run_handler. rewrite Hfind. cbn. by rewrite Hret. }
  cbn zeta. split; [done|]. split; [done|].
  rewrite Hrun. cbn. rewrite Hfind. cbn. by rewrite Hret.
Qed.

(** *** Listing and searching books *)

(** C8, as the code has it.  Listing the books fails with the message "No
    hay libros disponibles" if and only if the catalog is empty; on any
    other catalog it returns all the books.  The store is never changed.
    The exception carries status 500 and not 404, the 404 being passed
    positionally where the constructor takes the status by keyword. *)
Theorem list_books_empty_iff (st : Store) :
  let e := HTTPError 500 "No hay libros disponibles" [404] in
  ((list_books st).1 = inl e ↔ books st = [])
  ∧ status_of e = 500
  ∧ (books st ≠ [] → (list_books st).1 = inr (books st))
  ∧ (list_books st).2 = st.
Proof.
  unfold list_books. run_handler. destruct (books st) as [|b bs]; cbn.
  - by split_and!.
  - split_and!; [split; intros [=] | done | done | done].
Qed.

Section SearchProperties.

Variable search_by_title : string → Store → list Book.

(** C9, as the code has it.  A title search whose match is empty fails with
    the message "No se encontraron libros con ese título"; a search that
    matches at least one book returns exactly the matching books.  The
    exception carries status 500 and not 404, the 404 being passed
    positionally where the constructor takes the status by keyword. *)
Theorem search_books_result (title : string) (st : Store) :
  let e := HTTPError 500 "No se encontraron libros con ese título" [404] in
  (search_by_title title st = [] →
     search_books search_by_title title st = (inl e, st))
  ∧ status_of e = 500
  ∧ (search_by_title title st ≠ [] →
     search_books search_by_title title st = (inr (search_by_title title st), st)).
Proof.
  unfold search_books. run_handler.
  destruct (search_by_title title st) as [|b bs]; cbn; by split_and!.
Qed.

End SearchProperties.

(** *** Decoding and applying a body *)

(** A value that is accepted is held, once the decoder has read it. *)
Lemma has_type_coerce t v : has_type t v = true → holds_type t (coerce t v) = true.
Proof. done. Qed.

(** What the decoder has read, it reads as it is. *)
Lemma coerce_idemp t v : coerce t (coerce t v) = coerce t v.
Proof.
  induction t; cbn; try done.
  destruct v; try done. by destruct (str_to_int s) eqn:Hs; [|rewrite Hs].
Qed.

(** Every decoded entry is a field that is not excluded, with the value of
    the body as the decoder reads it, or with the field's default when the
    configuration is not partial and the body has no value. *)
Lemma decode_sound cfg fields body data k v :
  decode cfg fields body = Some data →
  (k, v) ∈ data →
  ∃ f, f ∈ fields ∧ field_name f = k ∧ (k ∉ exclude cfg)
       ∧ ((∃ w, body !! k = Some w ∧ has_type (field_ty f) w = true
                ∧ v = coerce (field_ty f) w)
          ∨ (body !! k = None ∧ partial cfg = false ∧ field_default f = Some v)).
Proof.
  revert data. induction fields as [|f fs IH]; intros data Hdec Hin; cbn in Hdec.
  { injection Hdec as <-. by apply elem_of_nil in Hin. }
  assert (Hrest : ∀ data', decode cfg fs body = Some data' → (k, v) ∈ data' →
            ∃ f', f' ∈ f :: fs ∧ field_name f' = k ∧ (k ∉ exclude cfg)
              ∧ ((∃ w, body !! k = Some w ∧ has_type (field_ty f') w = true
                       ∧ v = coerce (field_ty f') w)
                 ∨ (body !! k = None ∧ partial cfg = false ∧ field_default f' = Some v))).
  { intros data' Hd Hi. destruct (IH data' Hd Hi) as (f' & ? & ?).
    exists f'. split; [by apply list_elem_of_further | done]. }
  case_bool_decide as Hex; [by eauto|].
  destruct (body !! field_name f) as [w|] eqn:Hbody.
  - destruct (has_type (field_ty f) w) eqn:Hty; [|done].
    destruct (decode cfg fs body) as [rest|] eqn:Hfs; [|done].
    injection Hdec as <-. apply elem_of_cons in Hin as [[= -> ->] | Hin]; [|by eauto].
    exists f. split; [apply list_elem_of_here|]. split_and!; [done..|].
    left. by exists w.
  - destruct (partial cfg) eqn:Hpartial; [by eauto|].
    destruct (field_default f) as [d|] eqn:Hdef; [|done].
    destruct (decode cfg fs body) as [rest|] eqn:Hfs; [|done].
    injection Hdec as <-. apply elem_of_cons in Hin as [[= -> ->] | Hin]; [|by eauto].
    exists f. split; [apply list_elem_of_here|]. eauto 10.
Qed.

(** Every value of the body for a field that is not excluded is decoded. *)
Lemma decode_complete cfg fields body data f v :
  decode cfg fields body = Some data →
  f ∈ fields → field_name f ∉ exclude cfg →
  body !! field_name f = Some v →
  (field_name f, coerce (field_ty f) v) ∈ data.
Proof.
  intros Hdec Hin Hex Hbody. revert data Hdec.
  induction Hin as [f fs|f g fs Hin IH]; intros data Hdec; cbn in Hdec.
  - rewrite bool_decide_eq_false_2, Hbody in Hdec by done.
    destruct (has_type (field_ty f) v); [|done].
    destruct (decode cfg fs body) as [rest|]; [|done].
    injection Hdec as <-. apply list_elem_of_here.
  - case_bool_decide; [by eauto|].
    destruct (body !! field_name g) as [w|].
    + destruct (has_type (field_ty g) w); [|done].
      destruct (decode cfg fs body) as [rest|] eqn:Hfs; [|done].
      injection Hdec as <-. apply list_elem_of_further. by eauto.
    + destruct (partial cfg); [by eauto|].
      destruct (field_default g); [|done].
      destruct (decode cfg fs body) as [rest|] eqn:Hfs; [|done].
      injection Hdec as <-. apply list_elem_of_further. by eauto.
Qed.

(** A value that the body supplies for a field that is not excluded was
    accepted, if the body was. *)
Lemma decode_accepted cfg fields body data f v :
  decode cfg fields body = Some data →
  f ∈ fields → field_name f ∉ exclude cfg →
  body !! field_name f = Some v → has_type (field_ty f) v = true.
Proof.
  intros Hdec Hf Hex Hbody. revert data Hdec.
  induction Hf as [f fs|f g fs Hf IH]; intros data Hdec; cbn in Hdec.
  - rewrite bool_decide_eq_false_2, Hbody in Hdec by done.
    by destruct (has_type (field_ty f) v).
  - case_bool_decide; [by eauto|].
    destruct (body !! field_name g) as [w|].
    + destruct (has_type (field_ty g) w); [|done].
      destruct (decode cfg fs body) as [rest|] eqn:Hfs; [|done]. by eauto.
    + destruct (partial cfg); [by eauto|].
      destruct (field_default g); [|done].
      destruct (decode cfg fs body) as [rest|] eqn:Hfs; [|done]. by eauto.
Qed.

(** A configuration that is not partial accepts no body that leaves out a
    field without default. *)
Lemma decode_required cfg fields body data f :
  partial cfg = false →
  decode cfg fields body = Some data →
  f ∈ fields → field_name f ∉ exclude cfg → field_default f = None →
  is_Some (body !! field_name f).
Proof.
  intros Hpartial Hdec Hin Hex Hdef. revert data Hdec.
  induction Hin as [f fs|f g fs Hin IH]; intros data Hdec; cbn in Hdec.
  - rewrite bool_decide_eq_false_2 in Hdec by done.
    destruct (body !! field_name f); [by eauto|].
    by rewrite Hpartial, Hdef in Hdec.
  - case_bool_decide; [by eauto|].
    destruct (body !! field_name g) as [w|].
    + destruct (has_type (field_ty g) w); [|done].
      destruct (decode cfg fs body) as [rest|] eqn:Hfs; [|done]. by eauto.
    + rewrite Hpartial in Hdec. destruct (field_default g); [|done].
      destruct (decode cfg fs body) as [rest|] eqn:Hfs; [|done]. by eauto.
Qed.

(** The decoded keys follow the field order. *)
Lemma decode_keys_sublist cfg fields body data :
  decode cfg fields body = Some data →
  data.*1 `sublist_of` (field_name <$> fields).
Proof.
  revert data. induction fields as [|f fs IH]; intros data Hdec; cbn in Hdec.
  { by injection Hdec as <-. }
  assert (Hskip : ∀ data', decode cfg fs body = Some data' →
            data'.*1 `sublist_of` (field_name <$> f :: fs))
    by (intros; apply sublist_cons; eauto).
  assert (Hkeep : ∀ w data', decode cfg fs body = Some data' →
            ((field_name f, w) :: data').*1 `sublist_of` (field_name <$> f :: fs))
    by (intros; apply sublist_skip; eauto).
  case_bool_decide; [by eauto|].
  destruct (body !! field_name f) as [w|].
  - destruct (has_type (field_ty f) w); [|done].
    destruct (decode cfg fs body) as [rest|]; [|done]. injection Hdec as <-. eauto.
  - destruct (partial cfg); [by eauto|].
    destruct (field_default f); [|done].
    destruct (decode cfg fs body) as [rest|]; [|done]. injection Hdec as <-. eauto.
Qed.

(** A value that the body carries under an excluded name has no part in
    the decoding. *)
Lemma decode_insert_excluded cfg fields body k v :
  k ∈ exclude cfg → decode cfg fields (<[k:=v]> body) = decode cfg fields body.
Proof.
  intros Hex. induction fields as [|f fs IH]; [done|]. cbn. rewrite IH.
  case_bool_decide as Hf; [done|].
  rewrite lookup_insert_ne; [done|]. by intros ->.
Qed.

Section UpdateInstance.
Context {A : Type} `{AttrsLaws A fields}.

(** An attribute that the data does not name keeps its value. *)
Lemma getattr_update_instance_notin (data : DTOData) (k : string) (x : A) :
  k ∉ data.*1 → getattr k (update_instance data x) = getattr k x.
Proof.
  unfold update_instance. revert x.
  induction data as [|[k' v'] data IH]; intros x Hk; [done|]. cbn in *.
  apply not_elem_of_cons in Hk as [Hne Hk].
  rewrite IH by done. by apply getattr_setattr_ne.
Qed.

(** An attribute that the data names, with a value of the field's type,
    has that value afterwards. *)
Lemma getattr_update_instance_in (data : DTOData) (f : FieldDefinition) (v : value) (x : A) :
  NoDup data.*1 → (field_name f, v) ∈ data →
  f ∈ fields → holds_type (field_ty f) v = true →
  getattr (field_name f) (update_instance data x) = Some v.
Proof.
  intros Hnodup Hin Hf Hty. revert x Hnodup Hin.
  induction data as [|[k' v'] data IH]; intros x Hnodup Hin.
  { by apply elem_of_nil in Hin. }
  cbn in Hnodup. apply NoDup_cons in Hnodup as [Hfresh Hnodup].
  apply elem_of_cons in Hin as [[= <- <-] | Hin].
  - change (update_instance ((field_name f, v) :: data) x)
      with (update_instance data (setattr (field_name f) v x)).
    rewrite getattr_update_instance_notin by done.
    by apply getattr_setattr_eq.
  - change (update_instance ((k', v') :: data) x)
      with (update_instance data (setattr k' v' x)).
    by apply IH.
Qed.
End UpdateInstance.

(** The mapped classes keep their attributes apart. *)
#[global] Instance Author_attrs_laws : AttrsLaws Author Author_fields.
Proof.
  split.
  - intros k k' v x Hne. cbn. unfold Author_getattr, Author_setattr.
    repeat case_decide; subst; try done; by destruct v.
  - intros f v x Hf Hty. unfold Author_fields in Hf.
    repeat (apply elem_of_cons in Hf as [-> | Hf]); [..|by apply elem_of_nil in Hf];
      by destruct v.
Qed.

#[global] Instance Book_attrs_laws : AttrsLaws Book Book_fields.
Proof.
  split.
  - intros k k' v x Hne. cbn. unfold Book_getattr, Book_setattr.
    repeat case_decide; subst; try done; by destruct v.
  - intros f v x Hf Hty. unfold Book_fields in Hf.
    repeat (apply elem_of_cons in Hf as [-> | Hf]); [..|by apply elem_of_nil in Hf];
      by destruct v.
Qed.

Section DecodeAndUpdate.
Context {A : Type} `{AttrsLaws A fields}.
Variable cfg : SQLAlchemyDTOConfig.
Variable body : gmap string value.
Variable data : list (string * value).
Hypothesis fields_NoDup : NoDup (field_name <$> fields).
Hypothesis decoded : decode cfg fields body = Some data.

(** A supplied value of a field that is not excluded is applied, as the
    decoder reads it. *)
Lemma update_instance_supplied (f : FieldDefinition) (v : value) (x : A) :
  f ∈ fields → field_name f ∉ exclude cfg →
  body !! field_name f = Some v →
  getattr (field_name f) (update_instance data x) = Some (coerce (field_ty f) v).
Proof.
  intros Hf Hex Hbody.
  pose proof (decode_complete _ _ _ _ _ _ decoded Hf Hex Hbody) as Hin.
  apply getattr_update_instance_in; [|done|done|].
  - exact (sublist_NoDup _ _ fields_NoDup (decode_keys_sublist _ _ _ _ decoded)).
  - apply has_type_coerce. by eapply decode_accepted.
Qed.

(** An excluded attribute is never assigned. *)
Lemma update_instance_excluded (k : string) (x : A) :
  k ∈ exclude cfg → getattr k (update_instance data x) = getattr k x.
Proof.
  intros Hex. apply getattr_update_instance_notin.
  intros Hin. apply list_elem_of_fmap in Hin as ([k' v] & -> & Hin).
  by destruct (decode_sound _ _ _ _ _ _ decoded Hin) as (? & _ & _ & ? & _).
Qed.

(** Where no default can stand in, an attribute that the body does not
    supply is never assigned. *)
Lemma update_instance_unsupplied (k : string) (x : A) :
  partial cfg = true ∨ (∀ f, f ∈ fields → field_default f = None) →
  body !! k = None → getattr k (update_instance data x) = getattr k x.
Proof.
  intros Hnodefault Hbody. apply getattr_update_instance_notin.
  intros Hin. apply list_elem_of_fmap in Hin as ([k' v] & -> & Hin).
  destruct (decode_sound _ _ _ _ _ _ decoded Hin) as (f & Hf & _ & _ & Hcase).
  cbn in Hbody.
  destruct Hcase as [(? & ? & _) | (_ & Hpartial & Hdef)]; [congruence|].
  destruct Hnodefault as [? | Hnone]; [congruence|].
  rewrite (Hnone f Hf) in Hdef. done.
Qed.
End DecodeAndUpdate.

Lemma value_of_pk_inj (k k' : option Z) : value_of_pk k = value_of_pk k' → k = k'.
Proof. destruct k, k'; cbn; congruence. Qed.

Lemma Author_fields_NoDup : NoDup (field_name <$> Author_fields).
Proof. compute_done. Qed.

Lemma Book_fields_NoDup : NoDup (field_name <$> Book_fields).
Proof. compute_done. Qed.

(** Picks the field of a list by its name. *)
Ltac field_by_name :=
  eexists (mkField _ _ _);
  split; [|split; [reflexivity|compute_done]]; in_list.

(** The fields that an author update accepts; none is an integer, so the
    decoder keeps the values of the body as they are. *)
Lemma AuthorUpdateDTO_writable (k : string) :
  k ∈ ["name"; "biography"; "date_of_birth"] →
  ∃ f, f ∈ Author_fields ∧ (∀ v, coerce (field_ty f) v = v)
       ∧ field_name f = k ∧ k ∉ exclude AuthorUpdateDTO.
Proof.
  intros Hk.
  repeat (apply elem_of_cons in Hk as [-> | Hk]); [..|by apply elem_of_nil in Hk];
    (eexists (mkField _ _ _);
     split; [|split; [|split; [reflexivity|compute_done]]]; [in_list|done]).
Qed.

(** *** Updating an author *)

Lemma Author_getattr_name (a : Author) (s : string) :
  getattr "name" a = Some (VStr s) → Author_name a = s.
Proof. destruct a. vm_compute. congruence. Qed.

Lemma Author_getattr_biography (a a' : Author) :
  getattr "biography" a' = getattr "biography" a →
  Author_biography a' = Author_biography a.
Proof.
  destruct a as [? ? b ?], a' as [? ? b' ?]. vm_compute.
  destruct b, b'; congruence.
Qed.

Lemma Author_getattr_date_of_birth (a a' : Author) :
  getattr "date_of_birth" a' = getattr "date_of_birth" a →
  Author_date_of_birth a' = Author_date_of_birth a.
Proof.
  destruct a as [? ? ? d], a' as [? ? ? d']. vm_compute.
  destruct d, d'; congruence.
Qed.

(** [update_author] on an author that exists. *)
Lemma update_author_existing (author_id : Z) (data : list (string * value))
    (st : Store) (author : Author) :
  find_row author_id (authors st) = Some author →
  let author' := update_instance data author in
  update_author author_id data st
  = (inr author', set_authors (replace_row author' (authors st)) st).
Proof.
  intros Hfind. unfold update_author. run_handler. by rewrite Hfind.
Qed.

(** C7. An author update on an existing author applies the fields that the
    body supplies and leaves the others as they were: each of name,
    biography and date_of_birth takes the supplied value, an attribute
    without value in the body is unchanged, the id and the books of the
    author are never modified (a value sent under id or books has no
    effect at all), and an update that supplies only the name changes
    nothing but the name.  A body that fails validation changes nothing at
    all. *)
Theorem patch_author_partial_update
    (author_id : Z) (body : gmap string value) (st : Store) (author : Author) :
  find_row author_id (authors st) = Some author →
  match decode AuthorUpdateDTO Author_fields body with
  | None => patch_author author_id body st = (inl ValidationException, st)
  | Some _ =>
      ∃ author' : Author,
        let st' := set_authors (replace_row author' (authors st)) st in
        patch_author author_id body st = (inr author', st')
        ∧ find_row author_id (authors st') = Some author'
        ∧ (∀ k v, k ∈ ["name"; "biography"; "date_of_birth"] →
                  body !! k = Some v → getattr k author' = Some v)
        ∧ (∀ k, body !! k = None → getattr k author' = getattr k author)
        ∧ Author_id author' = Author_id author
        ∧ Author_books st' author' = Author_books st author
        ∧ (∀ v, patch_author author_id (<["id" := v]> body) st
                = patch_author author_id body st)
        ∧ (∀ v, patch_author author_id (<["books" := v]> body) st
                = patch_author author_id body st)
        ∧ (∀ name, body !! "name" = Some (VStr name) →
                   body !! "biography" = None → body !! "date_of_birth" = None →
                   author' = mkAuthor (Author_id author) name
                                      (Author_biography author)
                                      (Author_date_of_birth author))
  end.
Proof.
  intros Hfind. unfold patch_author, with_dto.
  destruct (decode AuthorUpdateDTO Author_fields body) as [data|] eqn:Hdec; [|done].
  rewrite (update_author_existing _ _ _ _ Hfind). cbn zeta.
  set (author' := update_instance data author).
  assert (Hsupplied : ∀ k v, k ∈ ["name"; "biography"; "date_of_birth"] →
            body !! k = Some v → getattr k author' = Some v).
  { intros k v Hk Hbody.
    destruct (AuthorUpdateDTO_writable k Hk) as (f & Hf & Hty & <- & Hex).
    rewrite <- (Hty v).
    by eapply update_instance_supplied; eauto using Author_fields_NoDup. }
  assert (Hkept : ∀ k, body !! k = None → getattr k author' = getattr k author).
  { intros k Hbody. eapply update_instance_unsupplied; eauto. }
  assert (Hid : Author_id author' = Author_id author).
  { apply value_of_pk_inj.
    assert (Hex : "id" ∈ exclude AuthorUpdateDTO) by compute_done.
    apply (update_instance_excluded _ _ _ Hdec "id" author) in Hex.
    by injection Hex. }
  exists author'. split_and!; try done.
  - cbn [authors set_authors]. eapply find_row_replace_row; [done|].
    change (Author_id author' = Some author_id). rewrite Hid.
    by apply find_row_pk in Hfind.
  - unfold Author_books. cbn. by rewrite Hid.
  - intros v. rewrite decode_insert_excluded, Hdec by compute_done.
    by apply update_author_existing.
  - intros v. rewrite decode_insert_excluded, Hdec by compute_done.
    by apply update_author_existing.
  - intros name Hname Hbio Hdob.
    apply Hsupplied in Hname; [|apply list_elem_of_here].
    apply Author_getattr_name in Hname.
    apply Hkept, Author_getattr_biography in Hbio.
    apply Hkept, Author_getattr_date_of_birth in Hdob.
    rewrite <- Hid, <- Hname, <- Hbio, <- Hdob. by destruct author'.
Qed.

(** *** Updating a book *)

(** The fields that a book update accepts. *)
Lemma BookWriteDTO_writable (k : string) :
  k ∈ ["isbn"; "title"; "description"; "year"; "language"; "author_id"; "categories"] →
  ∃ f, f ∈ Book_fields ∧ field_name f = k ∧ k ∉ exclude BookWriteDTO.
Proof.
  intros Hk.
  repeat (apply elem_of_cons in Hk as [-> | Hk]); [..|by apply elem_of_nil in Hk];
    field_by_name.
Qed.

Lemma Book_fields_no_default (f : FieldDefinition) :
  f ∈ Book_fields → field_default f = None.
Proof.
  intros Hf. unfold Book_fields in Hf.
  repeat (apply elem_of_cons in Hf as [-> | Hf]); [..|by apply elem_of_nil in Hf]; done.
Qed.

(** [BookWriteDTO] is not partial: a body that is accepted supplies every
    field that is not excluded. *)
Lemma BookWriteDTO_requires_every_field (body : gmap string value)
    (data : list (string * value)) (k : string) :
  decode BookWriteDTO Book_fields body = Some data →
  k ∈ ["isbn"; "title"; "description"; "year"; "language"; "author_id"; "categories"] →
  is_Some (body !! k).
Proof.
  intros Hdec Hk. destruct (BookWriteDTO_writable k Hk) as (f & Hf & <- & Hex).
  apply (decode_required BookWriteDTO Book_fields body data f);
    [reflexivity | done | done | done | by apply Book_fields_no_default].
Qed.

Lemma Book_getattr_author_id (b : Book) (n : Z) :
  getattr "author_id" b = Some (VInt n) → Book_author_id b = n.
Proof. destruct b. vm_compute. congruence. Qed.

(** [update_book] on a book that exists hands the updated book to the
    repository. *)
Lemma update_book_existing (book_id : Z) (data : list (string * value))
    (st : Store) (book : Book) :
  find_row book_id (books st) = Some book →
  update_book book_id data st = BookRepository_update (update_instance data book) st.
Proof.
  intros Hfind. unfold update_book.
  unfold mbind, Request_bind, BookRepository_get, repo_get. cbn [rows books_table].
  by rewrite Hfind.
Qed.

(** C6, as the code has it.  The book update is declared with the write
    view of a book, which is not partial: a body that leaves out one of
    isbn, title, description, year, language, author_id and categories
    fails the validation, whether the book exists or not, and nothing is
    applied and nothing is written.  Only a body that supplies all seven is
    applied to an existing book: the book that goes to the repository has
    every one of them as the decoder read it, author_id among them, and its
    id as before; what the request returns is what the repository makes of
    that book. *)
Theorem patch_book_requires_every_field
    (book_id : Z) (body : gmap string value) (st : Store) :
  (∀ k, k ∈ ["isbn"; "title"; "description"; "year"; "language"; "author_id";
             "categories"] →
        body !! k = None →
        patch_book book_id body st = (inl ValidationException, st))
  ∧ (∀ data book,
       decode BookWriteDTO Book_fields body = Some data →
       find_row book_id (books st) = Some book →
       let book' := update_instance data book in
       patch_book book_id body st = BookRepository_update book' st
       ∧ (∀ k, k ∈ ["isbn"; "title"; "description"; "year"; "language"; "author_id";
                    "categories"] →
               ∃ f v, f ∈ Book_fields ∧ field_name f = k ∧ body !! k = Some v
                      ∧ getattr k book' = Some (coerce (field_ty f) v))
       ∧ Book_id book' = Book_id book
       ∧ (∀ n, body !! "author_id" = Some (VInt n) → Book_author_id book' = n)).
Proof.
  split.
  - intros k Hk Hbody. unfold patch_book, with_dto.
    destruct (decode BookWriteDTO Book_fields body) as [data|] eqn:Hdec; [|done].
    destruct (BookWriteDTO_requires_every_field body data k Hdec Hk) as [v Hv].
    congruence.
  - intros data book Hdec Hfind. cbn zeta.
    set (book' := update_instance data book).
    assert (Hsupplied : ∀ f v, f ∈ Book_fields → field_name f ∉ exclude BookWriteDTO →
              body !! field_name f = Some v →
              getattr (field_name f) book' = Some (coerce (field_ty f) v)).
    { intros f v Hf Hex Hbody.
      by eapply update_instance_supplied; eauto using Book_fields_NoDup. }
    split_and!.
    + unfold patch_book, with_dto. rewrite Hdec. by apply update_book_existing.
    + intros k Hk.
      destruct (BookWriteDTO_requires_every_field body data k Hdec Hk) as [v Hv].
      destruct (BookWriteDTO_writable k Hk) as (f & Hf & <- & Hex).
      exists f, v. split_and!; try done. by apply Hsupplied.
    + apply value_of_pk_inj.
      assert (Hex : "id" ∈ exclude BookWriteDTO) by compute_done.
      apply (update_instance_excluded _ _ _ Hdec "id" book) in Hex.
      by injection Hex.
    + intros n Hbody.
      apply (Hsupplied (mkField "author_id" TInt None)) in Hbody;
        [|in_list|compute_done].
      by apply Book_getattr_author_id in Hbody.
Qed.

(** *** Fines and returns go together *)

(** [create_loan] adds a loan without fine and [return_loan] sets a fine
    only on a loan it marks as returned, so the loans of a store that the
    handlers built never carry a fine before they are returned. *)
Lemma create_loan_keeps_fines (is_book_available : Z → Store → bool)
    (utcnow book_id client_id : Z) (st : Store) :
  Forall fine_only_when_returned (loans st) →
  Forall fine_only_when_returned
         (loans (create_loan is_book_available utcnow book_id client_id st).2).
Proof.
  intros Hinv. unfold create_loan. run_handler.
  destruct (find_row book_id (books st)), (find_row client_id (clients st));
    cbn; try done.
  destruct (is_book_available book_id st); cbn; [done|].
  apply Forall_app. split; [done|]. by apply Forall_singleton.
Qed.

Lemma return_loan_keeps_fines (utcnow loan_id : Z) (st : Store) :
  Forall fine_only_when_returned (loans st) →
  Forall fine_only_when_returned (loans (return_loan utcnow loan_id st).2).
Proof.
  intros Hinv. unfold return_loan. run_handler.
  destruct (find_row loan_id (loans st)) as [loan|]; cbn; [|done].
  destruct (Loan_return_date loan) eqn:Hret; cbn; [done|].
  destruct (datetime_add _ _); cbn; [|done].
  unfold replace_row. apply Forall_fmap. eapply Forall_impl; [exact Hinv|].
  intros r Hr. cbn. case_bool_decide; [|done].
  by destruct (datetime_gt _ _).
Qed.

End HandlerProperties.

(** ** The handlers on the small library *)

#[global] Existing Instance decimal_decoder.
#[global] Existing Instance keyed_flush.

Lemma create_loan_availability_gate_witness :
  (find_row 1 (books fresh_library) = Some hobbit
   ∧ find_row 1 (clients fresh_library) = Some ana
   ∧ no_outstanding_loan 1 fresh_library = true
   ∧ create_loan no_outstanding_loan t_2024_01_01 1 1 fresh_library
     = (inl (HTTPError 500 "No hay copias disponibles para préstamo" [400]), fresh_library))
  ∧ (find_row 1 (books library) = Some hobbit
     ∧ find_row 1 (clients library) = Some ana
     ∧ no_outstanding_loan 1 library = false
     ∧ create_loan no_outstanding_loan t_2024_01_01 1 1 library
       = (inr (mkLoan (Some 3) 1 1 t_2024_01_01 None None),
          set_loans [open_loan; closed_loan; mkLoan (Some 3) 1 1 t_2024_01_01 None None]
                    library)
     ∧ LoanController_create_loan no_outstanding_loan t_2024_01_01 1 1 library
       = (inl ValidationException, library)).
Proof.
  split.
  - split; [reflexivity|]. split; [reflexivity|]. split; [reflexivity|].
    apply (create_loan_availability_gate no_outstanding_loan t_2024_01_01 1 1
             fresh_library hobbit ana); reflexivity.
  - split; [reflexivity|]. split; [reflexivity|]. split; [reflexivity|].
    split.
    + apply (create_loan_availability_gate no_outstanding_loan t_2024_01_01 1 1
               library hobbit ana); reflexivity.
    + apply (create_loan_availability_gate no_outstanding_loan t_2024_01_01 1 1
               library hobbit ana); reflexivity.
Defined.

Lemma create_loan_missing_entity_witness :
  find_row 7 (books library) = None
  ∧ create_loan no_outstanding_loan t_2024_01_01 7 1 library
    = (inl (HTTPError 500 "El libro o el cliente no existe" [404]), library)
  ∧ LoanController_create_loan no_outstanding_loan t_2024_01_01 7 1 library
    = (inl ValidationException, library).
Proof.
  split; [reflexivity|].
  destruct (create_loan_missing_entity no_outstanding_loan t_2024_01_01 7 1 library
              (or_introl eq_refl)) as (Hrun & _ & Hroute).
  split; [exact Hrun | exact Hroute].
Defined.

Lemma create_loan_persists_new_loan_witness :
  find_row 1 (books library) = Some hobbit
  ∧ find_row 1 (clients library) = Some ana
  ∧ no_outstanding_loan 1 library = false
  ∧ ∃ (loan : Loan) (st' : Store),
      create_loan no_outstanding_loan t_2024_01_01 1 1 library = (inr loan, st')
      ∧ loans st' = loans library ++ [loan]
      ∧ Loan_loan_date loan = t_2024_01_01
      ∧ Loan_return_date loan = None
      ∧ Loan_fine loan = None
      ∧ Loan_id loan = Some 3.
Proof.
  split; [reflexivity|]. split; [reflexivity|]. split; [reflexivity|].
  destruct (create_loan_persists_new_loan no_outstanding_loan t_2024_01_01 1 1
              library hobbit ana eq_refl eq_refl eq_refl)
    as (loan & st' & Hrun & Hrows & Hdate & _ & _ & Hret & Hfine & Hid & _).
  exists loan, st'. repeat split; assumption.
Defined.

Lemma return_loan_fine_witness :
  find_row 1 (loans library) = Some open_loan
  ∧ Loan_return_date open_loan = None
  ∧ datetime_add (Loan_loan_date open_loan) (timedelta_days 7)
    = Some (t_2024_01_01 + 7 * us_per_day)
  ∧ ∃ loan' : Loan,
      return_loan (t_2024_01_01 + 9 * us_per_day) 1 library
      = (inr loan', set_loans (replace_row loan' (loans library)) library)
      ∧ Loan_return_date loan' = Some (t_2024_01_01 + 9 * us_per_day)
      ∧ Loan_fine loan' = Some float_one.
Proof.
  split; [reflexivity|]. split; [reflexivity|]. split; [reflexivity|].
  destruct (return_loan_fine (t_2024_01_01 + 9 * us_per_day) 1 library open_loan
              (t_2024_01_01 + 7 * us_per_day) eq_refl eq_refl eq_refl)
    as (_ & loan' & Hrun & _ & Hret & _ & _ & _ & Hnine).
  exists loan'. split; [exact Hrun|]. split; [exact Hret|].
  apply Hnine. reflexivity.
Defined.

Lemma return_loan_zero_fine_witness :
  find_row 1 (loans library) = Some open_loan
  ∧ Loan_return_date open_loan = None
  ∧ datetime_add (Loan_loan_date open_loan) (timedelta_days 7)
    = Some (t_2024_01_01 + 7 * us_per_day)
  ∧ t_2024_01_01 + 7 * us_per_day < one_hour_late
    < t_2024_01_01 + 7 * us_per_day + us_per_day
  ∧ ∃ loan' : Loan,
      return_loan one_hour_late 1 library
      = (inr loan', set_loans (replace_row loan' (loans library)) library)
      ∧ Loan_fine loan' = Some float_zero.
Proof.
  split; [reflexivity|]. split; [reflexivity|]. split; [reflexivity|].
  split; [split; reflexivity|].
  destruct (return_loan_zero_fine one_hour_late 1 library open_loan
              (t_2024_01_01 + 7 * us_per_day) eq_refl eq_refl eq_refl
              (conj eq_refl eq_refl))
    as (_ & loan' & Hrun & Hfine & _).
  exists loan'. split; [exact Hrun | exact Hfine].
Defined.

Lemma return_loan_already_returned_witness :
  find_row 2 (loans library) = Some closed_loan
  ∧ Loan_return_date closed_loan = Some (t_2024_01_01 + 9 * us_per_day)
  ∧ return_loan one_hour_late 2 library
    = (inl (HTTPError 500 "El libro ya ha sido devuelto" [400]), library).
Proof.
  split; [reflexivity|]. split; [reflexivity|].
  exact (proj1 (return_loan_already_returned one_hour_late 2 library closed_loan
                  (t_2024_01_01 + 9 * us_per_day) eq_refl eq_refl)).
Defined.

Lemma list_books_empty_iff_witness :
  (list_books empty_library).1 = inl (HTTPError 500 "No hay libros disponibles" [404])
  ∧ (list_books library).1 = inr [hobbit].
Proof.
  split.
  - apply (proj1 (list_books_empty_iff empty_library)). reflexivity.
  - apply (proj1 (proj2 (proj2 (list_books_empty_iff library)))). discriminate.
Defined.

Lemma search_books_result_witness :
  title_contains "Hobbit" library = [hobbit]
  ∧ search_books title_contains "Hobbit" library = (inr [hobbit], library)
  ∧ title_contains "Dune" library = []
  ∧ search_books title_contains "Dune" library
    = (inl (HTTPError 500 "No se encontraron libros con ese título" [404]), library).
Proof.
  split; [reflexivity|]. split.
  - apply (proj2 (proj2 (search_books_result title_contains "Hobbit" library))).
    discriminate.
  - split; [reflexivity|].
    apply (proj1 (search_books_result title_contains "Dune" library)). reflexivity.
Defined.

Lemma patch_author_partial_update_witness :
  find_row 1 (authors library) = Some tolkien
  ∧ ∃ author' : Author,
      (patch_author 1 name_only library).1 = inr author'
      ∧ author' = mkAuthor (Some 1) "John Ronald Reuel Tolkien"
                           (Some "Philologist") (Some 690676).
Proof.
  split; [reflexivity|].
  pose proof (patch_author_partial_update 1 name_only library tolkien eq_refl) as H.
  assert (Hdec : decode AuthorUpdateDTO Author_fields name_only
                 = Some [("name", VStr "John Ronald Reuel Tolkien")])
    by (vm_compute; reflexivity).
  rewrite Hdec in H.
  destruct H as (author' & Hrun & _ & _ & _ & _ & _ & _ & _ & Honly).
  exists author'. split; [by rewrite Hrun|].
  apply (Honly "John Ronald Reuel Tolkien"); reflexivity.
Defined.

Lemma patch_book_requires_every_field_witness :
  find_row 1 (books library) = Some hobbit
  ∧ title_only !! "isbn" = None
  ∧ patch_book 1 title_only library = (inl ValidationException, library)
  ∧ decode BookWriteDTO Book_fields hobbit_year_as_text
    = decode BookWriteDTO Book_fields hobbit_reassigned
  ∧ patch_book 1 hobbit_year_as_text library
    = BookRepository_update hobbit_moved library.
Proof.
  split; [reflexivity|]. split; [reflexivity|].
  pose proof (patch_book_requires_every_field 1 title_only library) as [Hmissing _].
  split; [apply (Hmissing "isbn"); [in_list | reflexivity]|].
  split; [vm_compute; reflexivity|].
  assert (Hdec : ∃ data, decode BookWriteDTO Book_fields hobbit_year_as_text = Some data
                         ∧ update_instance data hobbit = hobbit_moved)
    by (eexists; split; vm_compute; reflexivity).
  destruct Hdec as (data & Hdec & Hmoved).
  pose proof (patch_book_requires_every_field 1 hobbit_year_as_text library) as [_ Hrun].
  destruct (Hrun data hobbit Hdec eq_refl) as [Hpatch _].
  rewrite Hpatch, Hmoved. reflexivity.
Defined.

(** ** Further properties of the handlers *)

Section FurtherProperties.
Context {lax : LaxDecoder} {flush : BookFlush}.

(** *** Looking a row up *)

Section RowLookup.
Context {A : Type} `{Model A}.

(** No row is found exactly when no row carries the key. *)
Lemma find_row_None_iff (id : Z) (rs : list A) :
  find_row id rs = None ↔ ∀ r, r ∈ rs → pk r ≠ Some id.
Proof.
  unfold find_row. split.
  - intros Hnone r Hr Hpk. apply list_elem_of_In in Hr.
    pose proof (find_none _ _ Hnone r Hr) as Hfalse. cbn in Hfalse.
    by rewrite bool_decide_eq_true_2 in Hfalse.
  - intros Hall. destruct (find _ rs) as [r|] eqn:Hfind; [|done].
    apply find_some in Hfind as [Hin Hpk]. apply bool_decide_eq_true in Hpk.
    apply list_elem_of_In in Hin. by destruct (Hall r Hin).
Qed.

Lemma find_row_app_found (id : Z) (rs rs' : list A) (x : A) :
  find_row id rs = Some x → find_row id (rs ++ rs') = Some x.
Proof.
  unfold find_row. induction rs as [|r rs IH]; [done|]. cbn.
  destruct (bool_decide (pk r = Some id)); [done|]. apply IH.
Qed.

Lemma replace_row_idemp (x : A) (rs : list A) :
  replace_row x (replace_row x rs) = replace_row x rs.
Proof.
  unfold replace_row. rewrite <- list_fmap_compose. apply list_fmap_ext.
  intros i r _. cbn. destruct (bool_decide (pk r = pk x)) eqn:Hr; [|by rewrite Hr].
  by rewrite bool_decide_eq_true_2.
Qed.
End RowLookup.

(** *** Returning a loan, continued *)

(** The route of [return_loan] reaches its handler: the loans repository is
    all that the handler asks for. *)
Lemma LoanController_return_loan_handler (utcnow loan_id : Z) :
  LoanController_return_loan utcnow loan_id = return_loan utcnow loan_id.
Proof. done. Qed.

Lemma return_loan_no_row (utcnow loan_id : Z) (st : Store) :
  find_row loan_id (loans st) = None →
  return_loan utcnow loan_id st = (inl (HTTPError 500 "El préstamo no existe" [404]), st).
Proof. intros Hfind. unfold return_loan. run_handler. by rewrite Hfind. Qed.

Lemma return_loan_closed (utcnow loan_id : Z) (st : Store) (loan : Loan) (d : Z) :
  find_row loan_id (loans st) = Some loan → Loan_return_date loan = Some d →
  return_loan utcnow loan_id st
  = (inl (HTTPError 500 "El libro ya ha sido devuelto" [400]), st).
Proof.
  intros Hfind Hret. unfold return_loan. run_handler. rewrite Hfind. cbn.
  by rewrite Hret.
Qed.

(** A return that succeeds found the loan still out, with a due date. *)
Lemma return_loan_success_inv (utcnow loan_id : Z) (st st' : Store) (loan' : Loan) :
  return_loan utcnow loan_id st = (inr loan', st') →
  ∃ (loan : Loan) (due_date : Z),
    find_row loan_id (loans st) = Some loan
    ∧ Loan_return_date loan = None
    ∧ datetime_add (Loan_loan_date loan) (timedelta_days 7) = Some due_date
    ∧ loan' = (if datetime_gt utcnow due_date
               then set_fine (Some (float_mul (float_of_int
                                       (days (datetime_sub utcnow due_date))) float_half))
                             (set_return_date (Some utcnow) loan)
               else set_return_date (Some utcnow) loan)
    ∧ st' = set_loans (replace_row loan' (loans st)) st.
Proof.
  intros Hrun.
  destruct (find_row loan_id (loans st)) as [loan|] eqn:Hfind; cycle 1.
  { by rewrite (return_loan_no_row _ _ _ Hfind) in Hrun. }
  destruct (Loan_return_date loan) as [d|] eqn:Hret.
  { by rewrite (return_loan_closed _ _ _ _ _ Hfind Hret) in Hrun. }
  destruct (datetime_add (Loan_loan_date loan) (timedelta_days 7)) as [due|] eqn:Hdue.
  - pose proof (return_loan_open utcnow _ _ _ _ Hfind Hret Hdue) as Hopen.
    cbn zeta in Hopen. rewrite Hopen in Hrun. injection Hrun as <- <-.
    exists loan, due. done.
  - pose proof (return_loan_overflow utcnow _ _ _ Hfind Hret Hdue). congruence.
Qed.

(** X1. [return_loan] fails with the message "El préstamo no existe"
    exactly when no loan carries the id, and then the store is left as it
    was.  The exception carries status 500: the 404 is passed positionally
    and is only stored. *)
Theorem return_loan_not_found_iff (utcnow loan_id : Z) (st : Store) :
  ((return_loan utcnow loan_id st).1 = inl (HTTPError 500 "El préstamo no existe" [404])
   ↔ ∀ l, l ∈ loans st → Loan_id l ≠ Some loan_id)
  ∧ ((∀ l, l ∈ loans st → Loan_id l ≠ Some loan_id) →
     (return_loan utcnow loan_id st).2 = st).
Proof.
  assert (Hiff : find_row loan_id (loans st) = None
                 ↔ ∀ l, l ∈ loans st → Loan_id l ≠ Some loan_id)
    by exact (find_row_None_iff (A:=Loan) loan_id (loans st)).
  rewrite <- Hiff. clear Hiff. split; [split|].
  - intros Hres. destruct (find_row loan_id (loans st)) as [loan|] eqn:Hfind; [|done].
    exfalso. destruct (Loan_return_date loan) as [d|] eqn:Hret.
    { by rewrite (return_loan_closed _ _ _ _ _ Hfind Hret) in Hres. }
    destruct (datetime_add (Loan_loan_date loan) (timedelta_days 7)) as [due|] eqn:Hdue.
    + pose proof (return_loan_open utcnow _ _ _ _ Hfind Hret Hdue) as Hopen.
      cbn zeta in Hopen. by rewrite Hopen in Hres.
    + by rewrite (return_loan_overflow _ _ _ _ Hfind Hret Hdue) in Hres.
  - intros Hfind. by rewrite (return_loan_no_row _ _ _ Hfind).
  - intros Hfind. by rewrite (return_loan_no_row _ _ _ Hfind).
Qed.

(** X2. A loan is returned at most once: after a return that succeeded,
    every further return of the same loan, at whatever time, fails with
    the message "El libro ya ha sido devuelto", under status 500 (the 400
    is passed positionally and is only stored), and changes nothing. *)
Theorem return_loan_at_most_once
    (utcnow utcnow' loan_id : Z) (st st' : Store) (loan' : Loan) :
  return_loan utcnow loan_id st = (inr loan', st') →
  return_loan utcnow' loan_id st'
  = (inl (HTTPError 500 "El libro ya ha sido devuelto" [400]), st').
Proof.
  intros Hrun.
  destruct (return_loan_success_inv _ _ _ _ _ Hrun)
    as (loan & due & Hfind & Hout & Hdue & Hloan' & ->).
  assert (Hret : Loan_return_date loan' = Some utcnow).
  { rewrite Hloan'. by destruct (datetime_gt utcnow due). }
  assert (Hpk : pk loan' = Some loan_id).
  { apply find_row_pk in Hfind. rewrite Hloan'. by destruct (datetime_gt utcnow due). }
  apply return_loan_closed with loan' utcnow; [|done].
  cbn [loans set_loans]. by apply find_row_replace_row with loan.
Qed.

(** X3. A returned loan is final: neither a return request, for whatever
    loan, nor a loan creation changes a loan whose return_date is set. *)
Theorem returned_loan_is_final
    (is_book_available : Z → Store → bool)
    (utcnow id other book_id client_id : Z) (st : Store) (loan : Loan) (returned : Z) :
  find_row id (loans st) = Some loan →
  Loan_return_date loan = Some returned →
  find_row id (loans (return_loan utcnow other st).2) = Some loan
  ∧ find_row id (loans (create_loan is_book_available utcnow book_id client_id st).2)
    = Some loan.
Proof.
  intros Hfind Hret. split.
  - destruct (return_loan utcnow other st) as [[e|loan'] st'] eqn:Hrun.
    + destruct (find_row other (loans st)) as [l|] eqn:Hother; cycle 1.
      { rewrite (return_loan_no_row _ _ _ Hother) in Hrun. by injection Hrun as _ <-. }
      destruct (Loan_return_date l) as [d|] eqn:Hl.
      { rewrite (return_loan_closed _ _ _ _ _ Hother Hl) in Hrun.
        by injection Hrun as _ <-. }
      destruct (datetime_add (Loan_loan_date l) (timedelta_days 7)) as [due|] eqn:Hdue.
      * pose proof (return_loan_open utcnow _ _ _ _ Hother Hl Hdue) as Hopen.
        cbn zeta in Hopen. congruence.
      * rewrite (return_loan_overflow _ _ _ _ Hother Hl Hdue) in Hrun.
        by injection Hrun as _ <-.
    + destruct (return_loan_success_inv _ _ _ _ _ Hrun)
        as (l & due & Hother & Hout & Hdue & Hloan' & ->).
      cbn [snd loans set_loans]. rewrite find_row_replace_row_ne; [done|].
      assert (Hpk : pk loan' = Some other).
      { apply find_row_pk in Hother. rewrite Hloan'. by destruct (datetime_gt utcnow due). }
      rewrite Hpk. intros [= ->]. congruence.
  - unfold create_loan. run_handler.
    destruct (find_row book_id (books st)), (find_row client_id (clients st));
      cbn; try done.
    destruct (is_book_available book_id st); cbn; [done|].
    exact (find_row_app_found (A:=Loan) id _ _ _ Hfind).
Qed.

(** X4. A return that succeeds touches one loan and two of its fields: the
    authors, books and clients are untouched, the loans keep their number,
    every loan under another id stays as it was, and the returned loan
    keeps its id, book, client and loan_date. *)
Theorem return_loan_frame (utcnow loan_id : Z) (st st' : Store) (loan' : Loan) :
  return_loan utcnow loan_id st = (inr loan', st') →
  authors st' = authors st ∧ books st' = books st ∧ clients st' = clients st
  ∧ length (loans st') = length (loans st)
  ∧ (∀ id, id ≠ loan_id → find_row id (loans st') = find_row id (loans st))
  ∧ ∃ loan : Loan,
      find_row loan_id (loans st) = Some loan
      ∧ Loan_id loan' = Loan_id loan
      ∧ Loan_book_id loan' = Loan_book_id loan
      ∧ Loan_client_id loan' = Loan_client_id loan
      ∧ Loan_loan_date loan' = Loan_loan_date loan.
Proof.
  intros Hrun.
  destruct (return_loan_success_inv _ _ _ _ _ Hrun)
    as (loan & due & Hfind & Hout & Hdue & Hloan' & ->).
  assert (Hsame : Loan_id loan' = Loan_id loan ∧ Loan_book_id loan' = Loan_book_id loan
                  ∧ Loan_client_id loan' = Loan_client_id loan
                  ∧ Loan_loan_date loan' = Loan_loan_date loan).
  { rewrite Hloan'. by destruct (datetime_gt utcnow due). }
  cbn [authors books clients loans set_loans]. split_and!; try done.
  - apply replace_row_length.
  - intros id Hne. apply find_row_replace_row_ne.
    change (Loan_id loan' ≠ Some id). destruct Hsame as [-> _].
    apply find_row_pk in Hfind. cbn in Hfind. congruence.
  - exists loan. by destruct Hsame as (? & ? & ? & ?).
Qed.

(** X5. The fine counts whole days only, and exactly: a return [k] whole
    days and a fraction of a day past the due date carries the fine
    [k * 0.5], with no rounding. *)
Theorem return_loan_fine_per_whole_day
    (utcnow loan_id : Z) (st : Store) (loan : Loan) (due_date k r : Z) :
  find_row loan_id (loans st) = Some loan →
  Loan_return_date loan = None →
  datetime_add (Loan_loan_date loan) (timedelta_days 7) = Some due_date →
  0 ≤ k → 0 ≤ r < us_per_day → 0 < k * us_per_day + r →
  utcnow = due_date + k * us_per_day + r →
  utcnow ≤ datetime_max →
  ∃ (loan' : Loan) (st' : Store),
    return_loan utcnow loan_id st = (inr loan', st')
    ∧ Loan_fine loan' = Some (float_mul (float_of_int k) float_half)
    ∧ is_halves (float_mul (float_of_int k) float_half) k.
Proof.
  intros Hfind Hout Hdue Hk Hr Hlate -> Hmax.
  pose proof (return_loan_open (due_date + k * us_per_day + r) _ _ _ _ Hfind Hout Hdue)
    as Hrun. cbn zeta in Hrun.
  apply datetime_add_days in Hdue as [_ [Hdue0 _]].
  assert (Hgt : datetime_gt (due_date + k * us_per_day + r) due_date = true)
    by (apply Z.ltb_lt; lia).
  rewrite Hgt in Hrun.
  assert (Hdays : days (datetime_sub (due_date + k * us_per_day + r) due_date) = k).
  { unfold datetime_sub, timedelta_of_us; cbn [days].
    replace (due_date + k * us_per_day + r - due_date) with (r + k * us_per_day) by lia.
    rewrite Z.div_add by (unfold us_per_day, us_per_second; lia).
    rewrite Z.div_small by lia. lia. }
  rewrite Hdays in Hrun. eexists _, _. split; [exact Hrun|]. split; [done|].
  apply fine_is_exact_half. split; [done|].
  assert (k * us_per_day ≤ datetime_max) by lia.
  unfold datetime_max, us_per_day, us_per_second in *. lia.
Qed.

(** X6. Both loan handlers keep fines where they belong: if no loan that
    is still out carries a fine, this is still so after a loan creation
    and after a return, whatever their outcome. *)
Theorem loan_handlers_keep_fines_on_returned_loans
    (is_book_available : Z → Store → bool)
    (utcnow book_id client_id loan_id : Z) (st : Store) :
  Forall fine_only_when_returned (loans st) →
  Forall fine_only_when_returned
         (loans (create_loan is_book_available utcnow book_id client_id st).2)
  ∧ Forall fine_only_when_returned (loans (return_loan utcnow loan_id st).2).
Proof.
  intros Hinv. split.
  - by apply create_loan_keeps_fines.
  - by apply return_loan_keeps_fines.
Qed.

(** X7. Fines stay whole halves: if every fine in the store is a
    non-negative whole number of halves, it is still so after a loan
    creation and after a return at any representable time. *)
Theorem loan_handlers_keep_fines_whole_halves
    (is_book_available : Z → Store → bool)
    (utcnow book_id client_id loan_id : Z) (st : Store) :
  utcnow ≤ datetime_max →
  Forall fine_is_whole_halves (loans st) →
  Forall fine_is_whole_halves
         (loans (create_loan is_book_available utcnow book_id client_id st).2)
  ∧ Forall fine_is_whole_halves (loans (return_loan utcnow loan_id st).2).
Proof.
  intros Hmax Hinv. split.
  - unfold create_loan. run_handler.
    destruct (find_row book_id (books st)), (find_row client_id (clients st));
      cbn; try done.
    destruct (is_book_available book_id st); cbn; [done|].
    apply Forall_app. split; [done|]. by apply Forall_singleton.
  - destruct (return_loan utcnow loan_id st) as [[e|loan'] st'] eqn:Hrun.
    + destruct (find_row loan_id (loans st)) as [l|] eqn:Hfind; cycle 1.
      { rewrite (return_loan_no_row _ _ _ Hfind) in Hrun. by injection Hrun as _ <-. }
      destruct (Loan_return_date l) as [d|] eqn:Hl.
      { rewrite (return_loan_closed _ _ _ _ _ Hfind Hl) in Hrun.
        by injection Hrun as _ <-. }
      destruct (datetime_add (Loan_loan_date l) (timedelta_days 7)) as [due|] eqn:Hdue.
      * pose proof (return_loan_open utcnow _ _ _ _ Hfind Hl Hdue) as Hopen.
        cbn zeta in Hopen. congruence.
      * rewrite (return_loan_overflow _ _ _ _ Hfind Hl Hdue) in Hrun.
        by injection Hrun as _ <-.
    + destruct (return_loan_success_inv _ _ _ _ _ Hrun)
        as (l & due & Hfind & Hout & Hdue & Hloan' & ->).
      cbn [snd loans set_loans]. unfold replace_row. apply Forall_fmap.
      eapply Forall_impl; [exact Hinv|]. intros r Hr. cbn.
      case_bool_decide; [|done].
      apply find_row_In in Hfind.
      rewrite Forall_forall in Hinv. specialize (Hinv l Hfind).
      apply datetime_add_days in Hdue as [_ [Hdue0 _]].
      rewrite Hloan'. unfold datetime_gt.
      destruct (due <? utcnow) eqn:Hcmp; [|exact Hinv].
      apply Z.ltb_lt in Hcmp. unfold fine_is_whole_halves. cbn [Loan_fine set_fine].
      rewrite days_overdue_truncates by done. intros f [= <-].
      exists (Z.quot (utcnow - due) us_per_day).
      pose proof (days_overdue_bound utcnow due Hdue0 (conj Hcmp Hmax)) as Hbound.
      split; [lia|]. by apply fine_is_exact_half.
Qed.

(** A creation that succeeds appended the new loan under the fresh key. *)
Lemma create_loan_success_inv (is_book_available : Z → Store → bool)
    (utcnow book_id client_id : Z) (st st' : Store) (loan : Loan) :
  create_loan is_book_available utcnow book_id client_id st = (inr loan, st') →
  loan = set_pk (Some (fresh_pk (loans st))) (new_Loan book_id client_id utcnow)
  ∧ st' = set_loans (loans st ++ [loan]) st
  ∧ is_book_available book_id st = false.
Proof.
  unfold create_loan. run_handler.
  destruct (find_row book_id (books st)), (find_row client_id (clients st));
    cbn; try done.
  destruct (is_book_available book_id st); cbn; [done|].
  by intros [= <- <-].
Qed.

(** X8. A loan that was just created can be returned, and a return no
    later than 7 days after its creation carries no fine. *)
Theorem create_then_return_in_time
    (is_book_available : Z → Store → bool)
    (created returned book_id client_id : Z) (st st1 : Store) (loan : Loan) :
  create_loan is_book_available created book_id client_id st = (inr loan, st1) →
  0 ≤ created → created + 7 * us_per_day ≤ datetime_max →
  returned ≤ created + 7 * us_per_day →
  ∃ (id : Z) (loan' : Loan) (st2 : Store),
    Loan_id loan = Some id
    ∧ return_loan returned id st1 = (inr loan', st2)
    ∧ Loan_return_date loan' = Some returned
    ∧ Loan_fine loan' = None
    ∧ find_row id (loans st2) = Some loan'.
Proof.
  intros Hcreate H0 Hmax Hreturned.
  apply create_loan_success_inv in Hcreate as (-> & -> & _).
  set (id := fresh_pk (loans st)).
  set (loan := set_pk (Some id) (new_Loan book_id client_id created)).
  assert (Hfind : find_row id (loans (set_loans (loans st ++ [loan]) st)) = Some loan).
  { cbn [loans set_loans]. apply find_row_app_fresh; [apply find_row_fresh_pk | done]. }
  assert (Hdue : datetime_add (Loan_loan_date loan) (timedelta_days 7)
                 = Some (created + 7 * us_per_day)).
  { unfold datetime_add. rewrite total_us_days. cbn [Loan_loan_date loan set_pk Loan_model new_Loan].
    cbn zeta.
    rewrite (proj2 (Z.leb_le _ _)) by (unfold us_per_day, us_per_second; lia).
    by rewrite (proj2 (Z.leb_le _ _)) by done. }
  pose proof (return_loan_open returned id _ loan _ Hfind eq_refl Hdue) as Hrun.
  cbn zeta in Hrun.
  assert (Hcmp : datetime_gt returned (created + 7 * us_per_day) = false)
    by (apply Z.ltb_ge; lia).
  rewrite Hcmp in Hrun.
  eexists id, _, _. split; [done|]. split; [exact Hrun|]. split; [done|]. split; [done|].
  cbn [loans set_loans]. by apply find_row_replace_row with loan.
Qed.

(** X9. No request gets a book its first loan.  The route of
    [create_loan] refuses every request as not valid before the handler
    runs, the controller providing the loans repository only.  And the
    handler itself lets a loan through only when the availability check
    answers false: with a check that answers true for a book without any
    loan, as an availability check does, it refuses such a book, under
    status 500, and the store stays as it was. *)
Theorem create_loan_never_first_loan
    (is_book_available : Z → Store → bool)
    (utcnow book_id client_id : Z) (st : Store) :
  (∀ b s, (∀ l, l ∈ loans s → Loan_book_id l ≠ b) → is_book_available b s = true) →
  (∀ l, l ∈ loans st → Loan_book_id l ≠ book_id) →
  LoanController_create_loan is_book_available utcnow book_id client_id st
  = (inl ValidationException, st)
  ∧ ∃ e : Exception,
      create_loan is_book_available utcnow book_id client_id st = (inl e, st)
      ∧ status_of e = 500
      ∧ (e = HTTPError 500 "El libro o el cliente no existe" [404]
         ∨ e = HTTPError 500 "No hay copias disponibles para préstamo" [400]).
Proof.
  intros Havail Hnone. split; [done|]. unfold create_loan. run_handler.
  destruct (find_row book_id (books st)), (find_row client_id (clients st));
    cbn; eauto.
  rewrite (Havail book_id st Hnone). cbn. eauto.
Qed.

(** A book without loans has no outstanding loan. *)
Lemma no_outstanding_loan_without_loans (b : Z) (s : Store) :
  (∀ l, l ∈ loans s → Loan_book_id l ≠ b) → no_outstanding_loan b s = true.
Proof.
  intros Hnone. unfold no_outstanding_loan. apply forallb_forall.
  intros l Hl. apply list_elem_of_In in Hl.
  by rewrite bool_decide_eq_false_2 by (by apply Hnone).
Qed.

(** X10. The due date must be a [datetime]: for a loan that is still out,
    the return fails with [OverflowError], the store untouched, exactly
    when loan_date lies in the last 7 days before [datetime.max]. *)
Theorem return_loan_overflow_iff (utcnow loan_id : Z) (st : Store) (loan : Loan) :
  find_row loan_id (loans st) = Some loan →
  Loan_return_date loan = None →
  valid_datetime (Loan_loan_date loan) →
  (return_loan utcnow loan_id st = (inl OverflowError, st)
   ↔ datetime_max - 7 * us_per_day < Loan_loan_date loan).
Proof.
  intros Hfind Hout [H0 Hmax].
  destruct (datetime_add (Loan_loan_date loan) (timedelta_days 7)) as [due|] eqn:Hdue.
  - pose proof (return_loan_open utcnow _ _ _ _ Hfind Hout Hdue) as Hopen.
    cbn zeta in Hopen. rewrite Hopen.
    apply datetime_add_days in Hdue as [-> [_ Hle]]. split; [done|lia].
  - rewrite (return_loan_overflow _ _ _ _ Hfind Hout Hdue). split; [|done].
    intros _. unfold datetime_add in Hdue. rewrite total_us_days in Hdue. cbn zeta in Hdue.
    destruct (0 <=? Loan_loan_date loan + 7 * us_per_day) eqn:Hlo; cycle 1.
    { apply Z.leb_gt in Hlo. unfold us_per_day, us_per_second in *. lia. }
    destruct (Loan_loan_date loan + 7 * us_per_day <=? datetime_max) eqn:Hhi; [done|].
    apply Z.leb_gt in Hhi. lia.
Qed.

(** *** Validation of a body *)

(** A body is decoded exactly when each field passes. *)
Lemma decode_accepts cfg fields body :
  is_Some (decode cfg fields body) ↔ forallb (field_ok cfg body) fields = true.
Proof.
  induction fields as [|f fs IH]; cbn [decode forallb]; [by split; eauto|].
  unfold field_ok at 1. case_bool_decide as Hex; cbn [orb]; [done|].
  destruct (body !! field_name f) as [v|].
  - destruct (has_type (field_ty f) v); cbn [andb]; [|by split; [intros []|]].
    rewrite <- IH. by rewrite fmap_is_Some.
  - destruct (partial cfg); cbn [orb andb]; [done|].
    destruct (field_default f); cbn [andb]; [|by split; [intros []|]].
    rewrite <- IH. by rewrite fmap_is_Some.
Qed.

(** Evaluates the membership tests of field names in exclusion sets. *)
Ltac eval_excluded :=
  repeat match goal with
  | |- context [bool_decide (?k ∈ exclude ?c)] =>
      let b := eval vm_compute in (bool_decide (k ∈ exclude c)) in
      replace (bool_decide (k ∈ exclude c)) with b by (vm_compute; reflexivity)
  end.

Ltac unfold_accepts :=
  rewrite decode_accepts;
  cbn [forallb field_ok field_name field_ty field_default
       Author_fields Book_fields Client_fields];
  unfold field_ok; cbn [field_name field_ty field_default];
  eval_excluded;
  cbn [partial AuthorWriteDTO AuthorUpdateDTO BookWriteDTO ClientWriteDTO orb];
  unfold supplied, acceptable; rewrite ?andb_true_r, ?andb_true_l.


Lemma AuthorUpdateDTO_accepts_spec (body : gmap string value) :
  is_Some (decode AuthorUpdateDTO Author_fields body) ↔ AuthorUpdateDTO_accepts body = true.
Proof. unfold AuthorUpdateDTO_accepts. unfold_accepts. by rewrite ?andb_assoc. Qed.

Lemma AuthorWriteDTO_accepts_spec (body : gmap string value) :
  is_Some (decode AuthorWriteDTO Author_fields body) ↔ AuthorWriteDTO_accepts body = true.
Proof. unfold AuthorWriteDTO_accepts. unfold_accepts. by rewrite ?andb_assoc. Qed.

Lemma ClientWriteDTO_accepts_spec (body : gmap string value) :
  is_Some (decode ClientWriteDTO Client_fields body) ↔ ClientWriteDTO_accepts body = true.
Proof. unfold ClientWriteDTO_accepts. unfold_accepts. by rewrite ?andb_assoc. Qed.

(** *** Updates, continued *)

Lemma update_author_missing (author_id : Z) (data : list (string * value)) (st : Store) :
  find_row author_id (authors st) = None →
  update_author author_id data st = (inl (HTTPError 500 "El autor no existe" [404]), st).
Proof. intros Hfind. unfold update_author. run_handler. by rewrite Hfind. Qed.



(** X12. An author update is validated before the author is looked up, and
    the update view is partial: the request fails validation, the store
    untouched, exactly when a value that the body does supply for name,
    biography or date_of_birth has the wrong type; a null name is such a
    value; an acceptable body for an author that does not exist fails with
    the message "El autor no existe", under status 500 (the 404 is passed
    positionally and is only stored). *)
Theorem patch_author_validation (author_id : Z) (body : gmap string value) (st : Store) :
  (patch_author author_id body st = (inl ValidationException, st)
   ↔ AuthorUpdateDTO_accepts body = false)
  ∧ (body !! "name" = Some VNone →
     patch_author author_id body st = (inl ValidationException, st))
  ∧ (AuthorUpdateDTO_accepts body = true → find_row author_id (authors st) = None →
     patch_author author_id body st = (inl (HTTPError 500 "El autor no existe" [404]), st)).
Proof.
  pose proof (AuthorUpdateDTO_accepts_spec body) as Hacc.
  assert (Hiff : patch_author author_id body st = (inl ValidationException, st)
                 ↔ AuthorUpdateDTO_accepts body = false).
  { unfold patch_author, with_dto.
    destruct (decode AuthorUpdateDTO Author_fields body) as [data|] eqn:Hdec.
    - assert (Hok : AuthorUpdateDTO_accepts body = true) by (apply Hacc; eauto).
      rewrite Hok. split; [|done]. intros Hrun. exfalso.
      destruct (find_row author_id (authors st)) as [a|] eqn:Hfind.
      + by rewrite (update_author_existing _ _ _ _ Hfind) in Hrun.
      + by rewrite (update_author_missing _ _ _ Hfind) in Hrun.
    - assert (Hno : AuthorUpdateDTO_accepts body = false).
      { destruct (AuthorUpdateDTO_accepts body); [|done].
        destruct (proj2 Hacc eq_refl) as [? [=]]. }
      rewrite Hno. by split. }
  split; [exact Hiff|]. split.
  - intros Hname. apply Hiff. unfold AuthorUpdateDTO_accepts, acceptable.
    by rewrite Hname.
  - intros Hok Hfind. unfold patch_author, with_dto.
    destruct (proj2 Hacc Hok) as [data ->]. by apply update_author_missing.
Qed.

(** The attributes of an author determine it. *)
Lemma Author_ext (a b : Author) :
  (∀ k, k ∈ ["id"; "name"; "biography"; "date_of_birth"] → getattr k a = getattr k b) →
  a = b.
Proof.
  intros Hext.
  assert (Hid : getattr "id" a = getattr "id" b) by (apply Hext; compute_done).
  assert (Hname : getattr "name" a = getattr "name" b) by (apply Hext; compute_done).
  assert (Hbio : getattr "biography" a = getattr "biography" b)
    by (apply Hext; compute_done).
  assert (Hdob : getattr "date_of_birth" a = getattr "date_of_birth" b)
    by (apply Hext; compute_done).
  apply Author_getattr_biography in Hbio. apply Author_getattr_date_of_birth in Hdob.
  destruct a as [i n ? ?], b as [i' n' ? ?]. cbn in Hbio, Hdob.
  vm_compute in Hid, Hname. apply (inj Some), value_of_pk_inj in Hid.
  congruence.
Qed.

Lemma Author_fields_defaults (f : FieldDefinition) (d : value) :
  f ∈ Author_fields → field_default f = Some d → holds_type (field_ty f) d = true.
Proof.
  intros Hf. unfold Author_fields in Hf.
  repeat (apply elem_of_cons in Hf as [-> | Hf]); [..|by apply elem_of_nil in Hf];
    cbn; by intros [= <-].
Qed.

Section DecodedData.
Context {A : Type} `{AttrsLaws A fields}.
Variable cfg : SQLAlchemyDTOConfig.
Variable body : gmap string value.
Variable data : list (string * value).
Hypothesis fields_NoDup : NoDup (field_name <$> fields).
Hypothesis defaults_typed :
  ∀ f d, f ∈ fields → field_default f = Some d → holds_type (field_ty f) d = true.
Hypothesis decoded : decode cfg fields body = Some data.

(** Decoded data is well typed. *)
Lemma decoded_well_typed (k : string) (v : value) :
  (k, v) ∈ data → ∃ f, f ∈ fields ∧ field_name f = k ∧ holds_type (field_ty f) v = true.
Proof.
  intros Hin.
  destruct (decode_sound _ _ _ _ _ _ decoded Hin) as (f & Hf & Hname & _ & Hcase).
  exists f. split; [done|]. split; [done|].
  destruct Hcase as [(w & _ & Hty & ->) | (_ & _ & Hdef)]; [done|].
  by eapply defaults_typed.
Qed.

Lemma decoded_keys_NoDup : NoDup data.*1.
Proof. exact (sublist_NoDup _ _ fields_NoDup (decode_keys_sublist _ _ _ _ decoded)). Qed.

(** Every decoded entry is read back after the assignment. *)
Lemma update_instance_decoded (k : string) (v : value) (x : A) :
  (k, v) ∈ data → getattr k (update_instance data x) = Some v.
Proof.
  intros Hin. destruct (decoded_well_typed k v Hin) as (f & Hf & <- & Hty).
  apply getattr_update_instance_in; auto using decoded_keys_NoDup.
Qed.

(** Assigning the same data twice is assigning it once. *)
Lemma update_instance_twice (k : string) (x : A) :
  getattr k (update_instance data (update_instance data x))
  = getattr k (update_instance data x).
Proof.
  destruct (decide (k ∈ data.*1)) as [Hin|Hnotin].
  - apply list_elem_of_fmap in Hin as ([k' v] & -> & Hin). cbn.
    by rewrite (update_instance_decoded k' v (update_instance data x) Hin),
      (update_instance_decoded k' v x Hin).
  - by rewrite (getattr_update_instance_notin data k (update_instance data x)).
Qed.
End DecodedData.

(** X13. An author update is idempotent: sending the body of an update
    that succeeded once more returns the same author and leaves the store
    as the first update left it. *)
Theorem patch_author_idempotent
    (author_id : Z) (body : gmap string value) (st st' : Store) (author' : Author) :
  patch_author author_id body st = (inr author', st') →
  patch_author author_id body st' = (inr author', st').
Proof.
  unfold patch_author, with_dto.
  destruct (decode AuthorUpdateDTO Author_fields body) as [data|] eqn:Hdec; [|done].
  destruct (find_row author_id (authors st)) as [a|] eqn:Hfind; cycle 1.
  { by rewrite (update_author_missing _ _ _ Hfind). }
  rewrite (update_author_existing _ _ _ _ Hfind). cbn zeta. intros [= <- <-].
  set (a' := update_instance data a).
  assert (Hid : Author_id a' = Author_id a).
  { apply value_of_pk_inj.
    assert (Hex : "id" ∈ exclude AuthorUpdateDTO) by compute_done.
    apply (update_instance_excluded _ _ _ Hdec "id" a) in Hex. by injection Hex. }
  assert (Hfind' : find_row author_id (replace_row a' (authors st)) = Some a').
  { eapply find_row_replace_row; [done|]. change (Author_id a' = Some author_id).
    rewrite Hid. by apply find_row_pk in Hfind. }
  rewrite (update_author_existing author_id data
             (set_authors (replace_row a' (authors st)) st) a' Hfind').
  cbn zeta.
  assert (Hsame : update_instance data a' = a').
  { apply Author_ext. intros k _.
    apply (update_instance_twice AuthorUpdateDTO body data
             Author_fields_NoDup Author_fields_defaults Hdec). }
  rewrite Hsame. cbn [authors set_authors]. by rewrite replace_row_idemp.
Qed.

(** A successful update found its row and replaced it. *)
Lemma patch_author_success_inv
    (author_id : Z) (body : gmap string value) (st st' : Store) (author' : Author) :
  patch_author author_id body st = (inr author', st') →
  ∃ (data : list (string * value)) (author : Author),
    decode AuthorUpdateDTO Author_fields body = Some data
    ∧ find_row author_id (authors st) = Some author
    ∧ author' = update_instance data author
    ∧ Author_id author' = Some author_id
    ∧ st' = set_authors (replace_row author' (authors st)) st.
Proof.
  unfold patch_author, with_dto.
  destruct (decode AuthorUpdateDTO Author_fields body) as [data|] eqn:Hdec; [|done].
  destruct (find_row author_id (authors st)) as [a|] eqn:Hfind; cycle 1.
  { by rewrite (update_author_missing _ _ _ Hfind). }
  rewrite (update_author_existing _ _ _ _ Hfind). cbn zeta. intros [= <- <-].
  exists data, a. split_and!; try done.
  transitivity (Author_id a); [|by apply find_row_pk in Hfind].
  apply value_of_pk_inj.
  assert (Hex : "id" ∈ exclude AuthorUpdateDTO) by compute_done.
  apply (update_instance_excluded _ _ _ Hdec "id" a) in Hex. by injection Hex.
Qed.

(** X15. An author update touches the one author: the books, clients and
    loans are untouched, the authors keep their number, and every author
    under another id stays as it was. *)
Theorem patch_author_frame
    (author_id : Z) (body : gmap string value) (st st' : Store) (author' : Author) :
  patch_author author_id body st = (inr author', st') →
  books st' = books st ∧ clients st' = clients st ∧ loans st' = loans st
  ∧ length (authors st') = length (authors st)
  ∧ (∀ id, id ≠ author_id → find_row id (authors st') = find_row id (authors st)).
Proof.
  intros Hrun.
  destruct (patch_author_success_inv _ _ _ _ _ Hrun) as (data & a & _ & _ & _ & Hid & ->).
  cbn [authors books clients loans set_authors]. split_and!; try done.
  - apply replace_row_length.
  - intros id Hne. apply find_row_replace_row_ne.
    change (Author_id author' ≠ Some id). congruence.
Qed.

(** X17. In an author update a null is a value and an omission is not: a
    null biography or date_of_birth clears the stored one, while a body
    that leaves the field out keeps it. *)
Theorem patch_author_null_clears
    (author_id : Z) (body : gmap string value) (st st' : Store) (author' : Author) :
  patch_author author_id body st = (inr author', st') →
  (body !! "biography" = Some VNone → Author_biography author' = None)
  ∧ (body !! "date_of_birth" = Some VNone → Author_date_of_birth author' = None)
  ∧ ∃ author : Author,
      find_row author_id (authors st) = Some author
      ∧ (body !! "biography" = None → Author_biography author' = Author_biography author)
      ∧ (body !! "date_of_birth" = None →
         Author_date_of_birth author' = Author_date_of_birth author).
Proof.
  intros Hrun.
  destruct (patch_author_success_inv _ _ _ _ _ Hrun)
    as (data & a & Hdec & Hfind & -> & _ & _).
  assert (Hsupplied : ∀ k v, k ∈ ["name"; "biography"; "date_of_birth"] →
            body !! k = Some v → getattr k (update_instance data a) = Some v).
  { intros k v Hk Hbody.
    destruct (AuthorUpdateDTO_writable k Hk) as (f & Hf & Hty & <- & Hex).
    rewrite <- (Hty v).
    by eapply update_instance_supplied; eauto using Author_fields_NoDup. }
  assert (Hkept : ∀ k, body !! k = None →
            getattr k (update_instance data a) = getattr k a).
  { intros k Hbody. eapply update_instance_unsupplied; eauto. }
  split; [|split].
  - intros Hnull. apply Hsupplied in Hnull; [|compute_done].
    destruct (update_instance data a) as [? ? bio ?]. vm_compute in Hnull.
    by destruct bio.
  - intros Hnull. apply Hsupplied in Hnull; [|compute_done].
    destruct (update_instance data a) as [? ? ? dob]. vm_compute in Hnull.
    by destruct dob.
  - exists a. split; [done|]. split; intros Hnone.
    + by apply Hkept, Author_getattr_biography in Hnone.
    + by apply Hkept, Author_getattr_date_of_birth in Hnone.
Qed.

(** *** Reading authors, books and clients *)

(** X18. [get_author] never changes the store; it fails with the message
    "El autor no existe" exactly when no author carries the id, under
    status 500 (the 404 is passed positionally and is only stored), and an
    author it returns is a row of the table with the id asked for. *)
Theorem get_author_result (author_id : Z) (st : Store) :
  (get_author author_id st).2 = st
  ∧ ((get_author author_id st).1 = inl (HTTPError 500 "El autor no existe" [404])
     ↔ ∀ a, a ∈ authors st → Author_id a ≠ Some author_id)
  ∧ (∀ a, (get_author author_id st).1 = inr a →
          a ∈ authors st ∧ Author_id a = Some author_id).
Proof.
  assert (Hiff : find_row author_id (authors st) = None
                 ↔ ∀ a, a ∈ authors st → Author_id a ≠ Some author_id)
    by exact (find_row_None_iff (A:=Author) author_id (authors st)).
  rewrite <- Hiff. clear Hiff. unfold get_author. run_handler.
  destruct (find_row author_id (authors st)) as [a|] eqn:Hfind; cbn.
  - split; [done|]. split; [by split|]. intros a' [= <-].
    split; [by apply find_row_In in Hfind | by apply find_row_pk in Hfind].
  - by split_and!.
Qed.

(** X19. [get_book] never changes the store; it fails with the message
    "El libro no existe" exactly when no book carries the id, under status
    500 (the 404 is passed positionally and is only stored), and a book it
    returns is a row of the table with the id asked for. *)
Theorem get_book_result (book_id : Z) (st : Store) :
  (get_book book_id st).2 = st
  ∧ ((get_book book_id st).1 = inl (HTTPError 500 "El libro no existe" [404])
     ↔ ∀ b, b ∈ books st → Book_id b ≠ Some book_id)
  ∧ (∀ b, (get_book book_id st).1 = inr b →
          b ∈ books st ∧ Book_id b = Some book_id).
Proof.
  assert (Hiff : find_row book_id (books st) = None
                 ↔ ∀ b, b ∈ books st → Book_id b ≠ Some book_id)
    by exact (find_row_None_iff (A:=Book) book_id (books st)).
  rewrite <- Hiff. clear Hiff. unfold get_book. run_handler.
  destruct (find_row book_id (books st)) as [b|] eqn:Hfind; cbn.
  - split; [done|]. split; [by split|]. intros b' [= <-].
    split; [by apply find_row_In in Hfind | by apply find_row_pk in Hfind].
  - by split_and!.
Qed.

(** X20. The two list endpoints differ on an empty table: [list_clients]
    fails with the message "No hay clientes disponibles" exactly when there
    is no client, under status 500 (the 404 is passed positionally and is
    only stored), and otherwise returns them all, while [list_authors]
    never fails and returns the authors, none included.  Neither changes
    the store. *)
Theorem list_clients_and_authors (st : Store) :
  ((list_clients st).1 = inl (HTTPError 500 "No hay clientes disponibles" [404])
   ↔ clients st = [])
  ∧ (clients st ≠ [] → (list_clients st).1 = inr (clients st))
  ∧ (list_clients st).2 = st
  ∧ list_authors st = (inr (authors st), st).
Proof.
  unfold list_clients, list_authors. run_handler. destruct (clients st) as [|c cs]; cbn.
  - by split_and!.
  - split_and!; [split; intros [=] | done | done | done].
Qed.

(** *** Creating authors and clients *)

#[global] Instance Client_attrs_laws : AttrsLaws Client Client_fields.
Proof.
  split.
  - intros k k' v x Hne. cbn. unfold Client_getattr, Client_setattr.
    repeat case_decide; subst; try done; by destruct v.
  - intros f v x Hf Hty. unfold Client_fields in Hf.
    repeat (apply elem_of_cons in Hf as [-> | Hf]); [..|by apply elem_of_nil in Hf];
      by destruct v.
Qed.

Lemma Client_fields_NoDup : NoDup (field_name <$> Client_fields).
Proof. compute_done. Qed.

Lemma Client_ext (a b : Client) :
  (∀ k, k ∈ ["id"; "name"; "email"] → getattr k a = getattr k b) → a = b.
Proof.
  intros Hext.
  assert (Hid : getattr "id" a = getattr "id" b) by (apply Hext; compute_done).
  assert (Hname : getattr "name" a = getattr "name" b) by (apply Hext; compute_done).
  assert (Hemail : getattr "email" a = getattr "email" b) by (apply Hext; compute_done).
  destruct a, b. vm_compute in Hid, Hname, Hemail.
  apply (inj Some), value_of_pk_inj in Hid. congruence.
Qed.


Lemma data_get_elem (data : list (string * value)) (k : string) (v : value) :
  NoDup data.*1 → (k, v) ∈ data → data_get k data = Some v.
Proof.
  unfold data_get. induction data as [|[k' v'] data IH]; intros Hnodup Hin.
  { by apply elem_of_nil in Hin. }
  cbn in *. apply NoDup_cons in Hnodup as [Hfresh Hnodup].
  apply elem_of_cons in Hin as [[= <- <-] | Hin].
  - by rewrite bool_decide_eq_true_2.
  - rewrite bool_decide_eq_false_2; [by apply IH|].
    intros ->. apply Hfresh. by apply (list_elem_of_fmap_2 fst _ (k, v)).
Qed.

(** A field that the body leaves out is decoded with its default. *)
Lemma decode_defaulted cfg fields body data f :
  decode cfg fields body = Some data →
  f ∈ fields → field_name f ∉ exclude cfg →
  body !! field_name f = None → partial cfg = false →
  ∃ d, field_default f = Some d ∧ (field_name f, d) ∈ data.
Proof.
  intros Hdec Hin Hex Hbody Hpartial. revert data Hdec.
  induction Hin as [f fs|f g fs Hin IH]; intros data Hdec; cbn in Hdec.
  - rewrite bool_decide_eq_false_2, Hbody, Hpartial in Hdec by done.
    destruct (field_default f) as [d|]; [|done].
    destruct (decode cfg fs body) as [rest|]; [|done].
    injection Hdec as <-. exists d. split; [done|]. apply list_elem_of_here.
  - assert (Hrest : ∀ rest, decode cfg fs body = Some rest →
              ∀ e, ∃ d, field_default f = Some d ∧ (field_name f, d) ∈ e :: rest).
    { intros rest Hd e. destruct (IH Hex Hbody rest Hd) as (d & ? & ?).
      exists d. split; [done|]. by apply list_elem_of_further. }
    case_bool_decide; [by eauto|].
    destruct (body !! field_name g) as [w|].
    + destruct (has_type (field_ty g) w); [|done].
      destruct (decode cfg fs body) as [rest|] eqn:Hfs; [|done].
      injection Hdec as <-. by apply Hrest.
    + rewrite Hpartial in Hdec. destruct (field_default g); [|done].
      destruct (decode cfg fs body) as [rest|] eqn:Hfs; [|done].
      injection Hdec as <-. by apply Hrest.
Qed.

(** The id apart, no field of an author is an integer: the decoder keeps
    the values of the body as they are. *)
Lemma Author_fields_coerce (f : FieldDefinition) (v : value) :
  f ∈ Author_fields → field_name f ≠ "id" → coerce (field_ty f) v = v.
Proof.
  intros Hf. unfold Author_fields in Hf.
  repeat (apply elem_of_cons in Hf as [-> | Hf]); [..|by apply elem_of_nil in Hf]; done.
Qed.

(** What an optional field of a new author holds after decoding: the value
    of the body, or the default [None]. *)
Lemma AuthorWriteDTO_optional (body : gmap string value) (data : list (string * value))
    (f : FieldDefinition) (x : Author) :
  decode AuthorWriteDTO Author_fields body = Some data →
  f ∈ Author_fields → field_name f ∉ exclude AuthorWriteDTO →
  getattr (field_name f) (update_instance data x)
  = Some (default VNone (body !! field_name f))
  ∨ (body !! field_name f = None ∧ field_default f = None).
Proof.
  intros Hdec Hf Hex.
  destruct (body !! field_name f) as [v|] eqn:Hbody.
  - left. cbn [default].
    rewrite <- (Author_fields_coerce f v Hf)
      by (intros Hid; apply Hex; rewrite Hid; compute_done).
    exact (update_instance_supplied AuthorWriteDTO body data Author_fields_NoDup Hdec
             f v x Hf Hex Hbody).
  - destruct (decode_defaulted _ _ _ _ _ Hdec Hf Hex Hbody eq_refl) as (d & Hd & Hin).
    left.
    rewrite (update_instance_decoded AuthorWriteDTO body data
               Author_fields_NoDup Author_fields_defaults Hdec _ d x Hin).
    unfold Author_fields in Hf.
    repeat (apply elem_of_cons in Hf as [-> | Hf]); [..|by apply elem_of_nil in Hf];
      cbn in Hd |- *; congruence.
Qed.

(** The outcome of [POST /authors], by the body. *)
Lemma post_author_creates_eq (body : gmap string value) (st : Store) :
  if AuthorWriteDTO_accepts body then
    ∃ name : string,
      body !! "name" = Some (VStr name)
      ∧ let author := mkAuthor (Some (fresh_pk (authors st))) name
                               (body_str "biography" body)
                               (body_date "date_of_birth" body) in
        post_author body st = (inr author, set_authors (authors st ++ [author]) st)
  else post_author body st = (inl ValidationException, st).
Proof.
  pose proof (AuthorWriteDTO_accepts_spec body) as Hacc.
  unfold post_author, with_model_dto.
  destruct (decode AuthorWriteDTO Author_fields body) as [data|] eqn:Hdec; cycle 1.
  { destruct (AuthorWriteDTO_accepts body); [|done].
    destruct (proj2 Hacc eq_refl) as [? [=]]. }
  assert (Hok : AuthorWriteDTO_accepts body = true) by (apply Hacc; eauto).
  rewrite Hok. unfold AuthorWriteDTO_accepts, supplied, acceptable in Hok.
  apply andb_prop in Hok as [Hok Hdob]. apply andb_prop in Hok as [Hname Hbio].
  destruct (body !! "name") as [[| |name| |]|] eqn:Hbody; try done.
  exists name. split; [done|]. cbn zeta.
  assert (Hnodup : NoDup data.*1)
    by exact (decoded_keys_NoDup AuthorWriteDTO body data Author_fields_NoDup Hdec).
  assert (Hin : ("name", VStr name) ∈ data).
  { apply (decode_complete _ _ _ _ (mkField "name" TStr None) _ Hdec);
      [in_list | compute_done | done]. }
  unfold new_Author. rewrite (data_get_elem _ _ _ Hnodup Hin).
  assert (Ha0 : update_instance data (mkAuthor None name None None)
                = mkAuthor None name (body_str "biography" body)
                           (body_date "date_of_birth" body)).
  { apply Author_ext. intros k Hk.
    repeat (apply elem_of_cons in Hk as [-> | Hk]); [..|by apply elem_of_nil in Hk].
    - assert (Hex : "id" ∈ exclude AuthorWriteDTO) by compute_done.
      by rewrite (update_instance_excluded _ _ _ Hdec "id" _ Hex).
    - by rewrite (update_instance_decoded AuthorWriteDTO body data
                    Author_fields_NoDup Author_fields_defaults Hdec _ _ _ Hin).
    - destruct (AuthorWriteDTO_optional body data
                  (mkField "biography" (TOptional TStr) (Some VNone))
                  (mkAuthor None name None None) Hdec)
        as [Hget | [_ [=]]]; [in_list | compute_done |].
      cbn [field_name] in Hget. rewrite Hget. unfold body_str.
      by destruct (body !! "biography") as [[| | | |]|].
    - destruct (AuthorWriteDTO_optional body data
                  (mkField "date_of_birth" (TOptional TDate) (Some VNone))
                  (mkAuthor None name None None) Hdec)
        as [Hget | [_ [=]]]; [in_list | compute_done |].
      cbn [field_name] in Hget. rewrite Hget. unfold body_date.
      by destruct (body !! "date_of_birth") as [[| | | |]|]. }
  by rewrite Ha0.
Qed.

(** X21. [POST /authors] accepts a body exactly when it has a string name
    and, if present, a string or null biography and a date or null
    date_of_birth.  The author it creates has that name, the biography and
    date_of_birth of the body ([None] when left out or null) and the next
    free id; it is appended to the authors.  Any other body fails
    validation and changes nothing.  A value that the body carries under id
    has no effect. *)
Theorem post_author_creates (body : gmap string value) (st : Store) :
  (if AuthorWriteDTO_accepts body then
     ∃ name : string,
       body !! "name" = Some (VStr name)
       ∧ let author := mkAuthor (Some (fresh_pk (authors st))) name
                                (body_str "biography" body)
                                (body_date "date_of_birth" body) in
         post_author body st = (inr author, set_authors (authors st ++ [author]) st)
   else post_author body st = (inl ValidationException, st))
  ∧ (∀ v, post_author (<["id" := v]> body) st = post_author body st).
Proof.
  split; [exact (post_author_creates_eq body st)|].
  intros v. unfold post_author, with_model_dto.
  by rewrite decode_insert_excluded by compute_done.
Qed.

(** The outcome of [POST /clients], by the body. *)
Lemma post_client_creates_eq (body : gmap string value) (st : Store) :
  if ClientWriteDTO_accepts body then
    ∃ name email : string,
      body !! "name" = Some (VStr name) ∧ body !! "email" = Some (VStr email)
      ∧ let client := mkClient (Some (fresh_pk (clients st))) name email in
        post_client body st = (inr client, set_clients (clients st ++ [client]) st)
  else post_client body st = (inl ValidationException, st).
Proof.
  pose proof (ClientWriteDTO_accepts_spec body) as Hacc.
  unfold post_client, with_model_dto.
  destruct (decode ClientWriteDTO Client_fields body) as [data|] eqn:Hdec; cycle 1.
  { destruct (ClientWriteDTO_accepts body); [|done].
    destruct (proj2 Hacc eq_refl) as [? [=]]. }
  assert (Hok : ClientWriteDTO_accepts body = true) by (apply Hacc; eauto).
  rewrite Hok. unfold ClientWriteDTO_accepts, supplied in Hok.
  apply andb_prop in Hok as [Hname Hemail].
  destruct (body !! "name") as [[| |name| |]|] eqn:Hbname; try done.
  destruct (body !! "email") as [[| |email| |]|] eqn:Hbemail; try done.
  exists name, email. split; [done|]. split; [done|]. cbn zeta.
  assert (Hdefaults : ∀ f d, f ∈ Client_fields → field_default f = Some d →
                             holds_type (field_ty f) d = true).
  { intros f d Hf. unfold Client_fields in Hf.
    repeat (apply elem_of_cons in Hf as [-> | Hf]); [..|by apply elem_of_nil in Hf]; done. }
  assert (Hnodup : NoDup data.*1)
    by exact (decoded_keys_NoDup ClientWriteDTO body data Client_fields_NoDup Hdec).
  assert (Hin1 : ("name", VStr name) ∈ data).
  { apply (decode_complete _ _ _ _ (mkField "name" TStr None) _ Hdec);
      [in_list | compute_done | done]. }
  assert (Hin2 : ("email", VStr email) ∈ data).
  { apply (decode_complete _ _ _ _ (mkField "email" TStr None) _ Hdec);
      [in_list | compute_done | done]. }
  unfold new_Client.
  rewrite (data_get_elem _ _ _ Hnodup Hin1), (data_get_elem _ _ _ Hnodup Hin2).
  assert (Hc0 : update_instance data (mkClient None name email)
                = mkClient None name email).
  { apply Client_ext. intros k Hk.
    repeat (apply elem_of_cons in Hk as [-> | Hk]); [..|by apply elem_of_nil in Hk].
    - assert (Hex : "id" ∈ exclude ClientWriteDTO) by compute_done.
      by rewrite (update_instance_excluded _ _ _ Hdec "id" _ Hex).
    - by rewrite (update_instance_decoded ClientWriteDTO body data
                    Client_fields_NoDup Hdefaults Hdec _ _ _ Hin1).
    - by rewrite (update_instance_decoded ClientWriteDTO body data
                    Client_fields_NoDup Hdefaults Hdec _ _ _ Hin2). }
  by rewrite Hc0.
Qed.

(** X22. [POST /clients] accepts a body exactly when it has a string name
    and a string email.  The client it creates has that name and email and
    the next free id; it is appended to the clients.  Any other body fails
    validation and changes nothing.  A value that the body carries under id
    has no effect. *)
Theorem post_client_creates (body : gmap string value) (st : Store) :
  (if ClientWriteDTO_accepts body then
     ∃ name email : string,
       body !! "name" = Some (VStr name) ∧ body !! "email" = Some (VStr email)
       ∧ let client := mkClient (Some (fresh_pk (clients st))) name email in
         post_client body st = (inr client, set_clients (clients st ++ [client]) st)
   else post_client body st = (inl ValidationException, st))
  ∧ (∀ v, post_client (<["id" := v]> body) st = post_client body st).
Proof.
  split; [exact (post_client_creates_eq body st)|].
  intros v. unfold post_client, with_model_dto.
  by rewrite decode_insert_excluded by compute_done.
Qed.

Lemma filter_none {A : Type} (p : A → bool) (l : list A) :
  (∀ x, x ∈ l → p x = false) → List.filter p l = [].
Proof.
  induction l as [|x l IH]; intros Hall; [done|]. cbn.
  rewrite (Hall x) by apply list_elem_of_here.
  apply IH. intros y Hy. apply Hall. by apply list_elem_of_further.
Qed.

(** X23. An author that was just created is found under its id by
    [get_author]; and in a store where every book refers to an author, the
    new author has no books and every book still refers to an author. *)
Theorem post_then_get_author (body : gmap string value) (st st' : Store) (author : Author) :
  post_author body st = (inr author, st') →
  ∃ id : Z,
    Author_id author = Some id
    ∧ get_author id st' = (inr author, st')
    ∧ (books_have_authors st → Author_books st' author = [] ∧ books_have_authors st').
Proof.
  intros Hrun. pose proof (post_author_creates_eq body st) as Hpost.
  destruct (AuthorWriteDTO_accepts body); [|congruence].
  destruct Hpost as (name & _ & Hpost). cbn zeta in Hpost.
  rewrite Hpost in Hrun. injection Hrun as <- <-.
  set (id := fresh_pk (authors st)).
  set (author := mkAuthor (Some id) name (body_str "biography" body)
                          (body_date "date_of_birth" body)).
  exists id. split; [done|]. split.
  - unfold get_author. run_handler. cbn [authors set_authors].
    by rewrite (find_row_app_fresh (A:=Author) id (authors st) author
                  (find_row_fresh_pk _) eq_refl).
  - intros Hfk. split.
    + unfold Author_books. cbn [books set_authors pk Author_model Author_id author].
      apply filter_none. intros b Hb. apply bool_decide_eq_false_2. intros [= Hbid].
      destruct (Hfk b Hb) as (a & Ha & Haid).
      pose proof (fresh_pk_above (A:=Author) (authors st) a (Book_author_id b) Ha Haid).
      fold id in H. lia.
    + intros b Hb. cbn [books set_authors] in Hb. destruct (Hfk b Hb) as (a & Ha & Haid).
      exists a. split; [|done]. cbn [authors set_authors].
      apply elem_of_app. by left.
Qed.

Section FailedRequests.
Variable search_by_title : string → Store → list Book.
Variable is_book_available : Z → Store → bool.

(** X25. A request that fails has changed nothing, and a read never
    changes anything: every handler that raises leaves the store as it
    found it, and the list, get and search handlers leave it so when they
    succeed too. *)
Theorem failed_request_changes_nothing (st : Store) :
  (list_authors st).2 = st
  ∧ (∀ id, (get_author id st).2 = st)
  ∧ (list_books st).2 = st
  ∧ (∀ id, (get_book id st).2 = st)
  ∧ (∀ title, (search_books search_by_title title st).2 = st)
  ∧ (list_clients st).2 = st
  ∧ (∀ body e, (post_author body st).1 = inl e → (post_author body st).2 = st)
  ∧ (∀ body e, (post_client body st).1 = inl e → (post_client body st).2 = st)
  ∧ (∀ id body e, (patch_author id body st).1 = inl e → (patch_author id body st).2 = st)
  ∧ (∀ id body e, (patch_book id body st).1 = inl e → (patch_book id body st).2 = st)
  ∧ (∀ utcnow b c e,
       (create_loan is_book_available utcnow b c st).1 = inl e →
       (create_loan is_book_available utcnow b c st).2 = st)
  ∧ (∀ utcnow id e,
       (return_loan utcnow id st).1 = inl e → (return_loan utcnow id st).2 = st).
Proof.
  split_and!.
  - done.
  - intros id. unfold get_author. run_handler. by destruct (find_row id (authors st)).
  - unfold list_books. run_handler. by destruct (books st).
  - intros id. unfold get_book. run_handler. by destruct (find_row id (books st)).
  - intros title. unfold search_books. run_handler.
    by destruct (search_by_title title st).
  - unfold list_clients. run_handler. by destruct (clients st).
  - intros body e. unfold post_author, with_model_dto.
    destruct (decode AuthorWriteDTO Author_fields body) as [data|]; [|done].
    by destruct (new_Author data).
  - intros body e. unfold post_client, with_model_dto.
    destruct (decode ClientWriteDTO Client_fields body) as [data|]; [|done].
    by destruct (new_Client data).
  - intros id body e. unfold patch_author, with_dto.
    destruct (decode AuthorUpdateDTO Author_fields body) as [data|]; [|done].
    unfold update_author. run_handler. by destruct (find_row id (authors st)).
  - intros id body e. unfold patch_book, with_dto.
    destruct (decode BookWriteDTO Book_fields body) as [data|]; [|done].
    unfold update_book. run_handler.
    destruct (find_row id (books st)) as [book|]; [|done].
    by destruct (book_flush _ st).
  - intros utcnow b c e. unfold create_loan. run_handler.
    destruct (find_row b (books st)), (find_row c (clients st)); cbn; try done.
    by destruct (is_book_available b st).
  - intros utcnow id e. unfold return_loan. run_handler.
    destruct (find_row id (loans st)) as [l|]; cbn; [|done].
    destruct (Loan_return_date l); cbn; [done|].
    destruct (datetime_add _ _); cbn; [|done]. done.
Qed.

End FailedRequests.

End FurtherProperties.

(** ** The further properties on the small library *)

Lemma return_loan_at_most_once_witness :
  return_loan (t_2024_01_01 + 9 * us_per_day) 1 library
  = (inr returned_late, (return_loan (t_2024_01_01 + 9 * us_per_day) 1 library).2)
  ∧ return_loan one_hour_late 1 (return_loan (t_2024_01_01 + 9 * us_per_day) 1 library).2
    = (inl (HTTPError 500 "El libro ya ha sido devuelto" [400]),
       (return_loan (t_2024_01_01 + 9 * us_per_day) 1 library).2).
Proof.
  assert (Hrun : return_loan (t_2024_01_01 + 9 * us_per_day) 1 library
                 = (inr returned_late,
                    (return_loan (t_2024_01_01 + 9 * us_per_day) 1 library).2))
    by (vm_compute; reflexivity).
  split; [exact Hrun|].
  exact (return_loan_at_most_once _ one_hour_late 1 library _ returned_late Hrun).
Defined.

Lemma returned_loan_is_final_witness :
  find_row 2 (loans library) = Some closed_loan
  ∧ Loan_return_date closed_loan = Some (t_2024_01_01 + 9 * us_per_day)
  ∧ find_row 2 (loans (return_loan one_hour_late 1 library).2) = Some closed_loan
  ∧ find_row 2 (loans (create_loan no_outstanding_loan one_hour_late 1 1 library).2)
    = Some closed_loan.
Proof.
  split; [reflexivity|]. split; [reflexivity|].
  exact (returned_loan_is_final no_outstanding_loan one_hour_late 2 1 1 1 library
           closed_loan (t_2024_01_01 + 9 * us_per_day) eq_refl eq_refl).
Defined.

Lemma return_loan_frame_witness :
  return_loan (t_2024_01_01 + 9 * us_per_day) 1 library
  = (inr returned_late, (return_loan (t_2024_01_01 + 9 * us_per_day) 1 library).2)
  ∧ find_row 2 (loans (return_loan (t_2024_01_01 + 9 * us_per_day) 1 library).2)
    = find_row 2 (loans library).
Proof.
  assert (Hrun : return_loan (t_2024_01_01 + 9 * us_per_day) 1 library
                 = (inr returned_late,
                    (return_loan (t_2024_01_01 + 9 * us_per_day) 1 library).2))
    by (vm_compute; reflexivity).
  split; [exact Hrun|].
  destruct (return_loan_frame _ 1 library _ returned_late Hrun)
    as (_ & _ & _ & _ & Hother & _).
  apply Hother. discriminate.
Defined.

Lemma return_loan_fine_per_whole_day_witness :
  find_row 1 (loans library) = Some open_loan
  ∧ Loan_return_date open_loan = None
  ∧ datetime_add (Loan_loan_date open_loan) (timedelta_days 7)
    = Some (t_2024_01_01 + 7 * us_per_day)
  ∧ ∃ (loan' : Loan) (st' : Store),
      return_loan (t_2024_01_01 + 7 * us_per_day + 2 * us_per_day + 3600 * us_per_second)
                  1 library = (inr loan', st')
      ∧ Loan_fine loan' = Some (float_mul (float_of_int 2) float_half)
      ∧ is_halves (float_mul (float_of_int 2) float_half) 2.
Proof.
  split; [reflexivity|]. split; [reflexivity|]. split; [reflexivity|].
  apply (return_loan_fine_per_whole_day _ 1 library open_loan
           (t_2024_01_01 + 7 * us_per_day) 2 (3600 * us_per_second));
    try reflexivity; try discriminate.
  split; [discriminate | reflexivity].
Defined.

Lemma library_fines_on_returned_loans : Forall fine_only_when_returned (loans library).
Proof.
  apply Forall_cons. split; [intros _; reflexivity|].
  apply Forall_cons. split; [intros Hout; discriminate Hout|]. apply Forall_nil_2.
Defined.

Lemma loan_handlers_keep_fines_on_returned_loans_witness :
  Forall fine_only_when_returned (loans library)
  ∧ Forall fine_only_when_returned
           (loans (create_loan no_outstanding_loan one_hour_late 1 1 library).2)
  ∧ Forall fine_only_when_returned (loans (return_loan one_hour_late 1 library).2).
Proof.
  split; [exact library_fines_on_returned_loans|].
  exact (loan_handlers_keep_fines_on_returned_loans no_outstanding_loan one_hour_late
           1 1 1 library library_fines_on_returned_loans).
Defined.

Lemma library_fines_whole_halves : Forall fine_is_whole_halves (loans library).
Proof.
  apply Forall_cons. split; [intros f Hf; discriminate Hf|].
  apply Forall_cons. split; [|apply Forall_nil_2].
  intros f Hf. injection Hf as <-. exists 2. split; [discriminate | reflexivity].
Defined.

Lemma loan_handlers_keep_fines_whole_halves_witness :
  one_hour_late ≤ datetime_max
  ∧ Forall fine_is_whole_halves (loans library)
  ∧ Forall fine_is_whole_halves
           (loans (create_loan no_outstanding_loan one_hour_late 1 1 library).2)
  ∧ Forall fine_is_whole_halves (loans (return_loan one_hour_late 1 library).2).
Proof.
  assert (Hmax : one_hour_late ≤ datetime_max) by discriminate.
  split; [exact Hmax|]. split; [exact library_fines_whole_halves|].
  exact (loan_handlers_keep_fines_whole_halves no_outstanding_loan one_hour_late
           1 1 1 library Hmax library_fines_whole_halves).
Defined.

Lemma create_then_return_in_time_witness :
  create_loan no_outstanding_loan t_2024_01_01 1 1 library
  = (inr (mkLoan (Some 3) 1 1 t_2024_01_01 None None),
     (create_loan no_outstanding_loan t_2024_01_01 1 1 library).2)
  ∧ ∃ (id : Z) (loan' : Loan) (st2 : Store),
      return_loan (t_2024_01_01 + 3 * us_per_day) id
                  (create_loan no_outstanding_loan t_2024_01_01 1 1 library).2
      = (inr loan', st2)
      ∧ Loan_fine loan' = None.
Proof.
  assert (Hrun : create_loan no_outstanding_loan t_2024_01_01 1 1 library
                 = (inr (mkLoan (Some 3) 1 1 t_2024_01_01 None None),
                    (create_loan no_outstanding_loan t_2024_01_01 1 1 library).2))
    by (vm_compute; reflexivity).
  split; [exact Hrun|].
  destruct (create_then_return_in_time no_outstanding_loan t_2024_01_01
              (t_2024_01_01 + 3 * us_per_day) 1 1 library _ _ Hrun)
    as (id & loan' & st2 & _ & Hret & _ & Hfine & _); try discriminate.
  exists id, loan', st2. split; [exact Hret | exact Hfine].
Defined.

Lemma create_loan_never_first_loan_witness :
  (∀ l, l ∈ loans fresh_library → Loan_book_id l ≠ 1)
  ∧ LoanController_create_loan no_outstanding_loan t_2024_01_01 1 1 fresh_library
    = (inl ValidationException, fresh_library)
  ∧ ∃ e : Exception,
      create_loan no_outstanding_loan t_2024_01_01 1 1 fresh_library = (inl e, fresh_library)
      ∧ status_of e = 500.
Proof.
  assert (Hnone : ∀ l, l ∈ loans fresh_library → Loan_book_id l ≠ 1).
  { intros l Hl. apply elem_of_nil in Hl. destruct Hl. }
  split; [exact Hnone|].
  destruct (create_loan_never_first_loan no_outstanding_loan t_2024_01_01 1 1
              fresh_library no_outstanding_loan_without_loans Hnone)
    as (Hroute & e & Hrun & Hstatus & _).
  split; [exact Hroute|]. exists e. split; [exact Hrun | exact Hstatus].
Defined.


Lemma return_loan_overflow_iff_witness :
  find_row 1 (loans last_library) = Some last_loan
  ∧ Loan_return_date last_loan = None
  ∧ valid_datetime (Loan_loan_date last_loan)
  ∧ return_loan datetime_max 1 last_library = (inl OverflowError, last_library).
Proof.
  assert (Hvalid : valid_datetime (Loan_loan_date last_loan))
    by (split; discriminate).
  split; [reflexivity|]. split; [reflexivity|]. split; [exact Hvalid|].
  apply (proj2 (return_loan_overflow_iff datetime_max 1 last_library last_loan
                  eq_refl eq_refl Hvalid)).
  reflexivity.
Defined.

Lemma patch_author_idempotent_witness :
  patch_author 1 name_only library
  = (inr (mkAuthor (Some 1) "John Ronald Reuel Tolkien" (Some "Philologist") (Some 690676)),
     (patch_author 1 name_only library).2)
  ∧ patch_author 1 name_only (patch_author 1 name_only library).2
    = (inr (mkAuthor (Some 1) "John Ronald Reuel Tolkien" (Some "Philologist")
                     (Some 690676)),
       (patch_author 1 name_only library).2).
Proof.
  assert (Hrun : patch_author 1 name_only library
                 = (inr (mkAuthor (Some 1) "John Ronald Reuel Tolkien"
                                  (Some "Philologist") (Some 690676)),
                    (patch_author 1 name_only library).2))
    by (vm_compute; reflexivity).
  split; [exact Hrun|].
  exact (patch_author_idempotent 1 name_only library _ _ Hrun).
Defined.

Lemma patch_author_frame_witness :
  (patch_author 1 name_only library).1
  = inr (mkAuthor (Some 1) "John Ronald Reuel Tolkien" (Some "Philologist") (Some 690676))
  ∧ find_row 2 (authors (patch_author 1 name_only library).2) = Some le_guin
  ∧ books (patch_author 1 name_only library).2 = books library.
Proof.
  assert (Hrun : patch_author 1 name_only library
                 = (inr (mkAuthor (Some 1) "John Ronald Reuel Tolkien"
                                  (Some "Philologist") (Some 690676)),
                    (patch_author 1 name_only library).2))
    by (vm_compute; reflexivity).
  split; [by rewrite Hrun|].
  destruct (patch_author_frame 1 name_only library _ _ Hrun)
    as (Hbooks & _ & _ & _ & Hother).
  split; [|exact Hbooks]. rewrite (Hother 2); [reflexivity | discriminate].
Defined.

Lemma patch_author_null_clears_witness :
  patch_author 1 biography_null library
  = (inr (mkAuthor (Some 1) "J. R. R. Tolkien" None (Some 690676)),
     (patch_author 1 biography_null library).2)
  ∧ Author_biography tolkien = Some "Philologist"
  ∧ Author_biography (mkAuthor (Some 1) "J. R. R. Tolkien" None (Some 690676)) = None.
Proof.
  assert (Hrun : patch_author 1 biography_null library
                 = (inr (mkAuthor (Some 1) "J. R. R. Tolkien" None (Some 690676)),
                    (patch_author 1 biography_null library).2))
    by (vm_compute; reflexivity).
  split; [exact Hrun|]. split; [reflexivity|].
  destruct (patch_author_null_clears 1 biography_null library _ _ Hrun) as (Hbio & _).
  apply Hbio. reflexivity.
Defined.

Lemma post_then_get_author_witness :
  post_author name_only library
  = (inr (mkAuthor (Some 3) "John Ronald Reuel Tolkien" None None),
     (post_author name_only library).2)
  ∧ ∃ id : Z,
      get_author id (post_author name_only library).2
      = (inr (mkAuthor (Some 3) "John Ronald Reuel Tolkien" None None),
         (post_author name_only library).2).
Proof.
  assert (Hrun : post_author name_only library
                 = (inr (mkAuthor (Some 3) "John Ronald Reuel Tolkien" None None),
                    (post_author name_only library).2))
    by (vm_compute; reflexivity).
  split; [exact Hrun|].
  destruct (post_then_get_author name_only library _ _ Hrun) as (id & _ & Hget & _).
  exists id. exact Hget.
Defined.
